(** * Bannister V4: stair-bannister LED controller (BannisterV4.ino)

    A shallow embedding of the Arduino sketch.  The sketch is a single
    thread that mutates two globals ([mode] and the pixel buffer [leds])
    and talks to the outside through blocking calls: [analogRead],
    [digitalRead], [FastLED.show], [FastLED.clear] and [delay].  The
    embedding threads a [State] through a small state-and-failure monad
    and records every interaction with the outside in a trace. *)

From Stdlib Require Import ZArith List Bool Lia.
From stdpp Require Import base list.
Import ListNotations.
Local Open Scope Z_scope.

(** ** Machine integers *)

(** Conversion to [uint8_t] and [uint16_t]: reduction modulo 2^8, 2^16. *)
Definition u8 (x : Z) : Z := x mod 256.
Definition u16 (x : Z) : Z := x mod 65536.

(** ** Compile-time constants *)

Definition NUM_LEDS : Z := 113.
Definition THRESHOLD_NIGHT : Z := 100.
Definition THRESHOLD_MORNING : Z := 300.
Definition THRESHOLD_DAY : Z := 500.
Definition THRESHOLD_EVENING : Z := 300.

Definition HIGH : Z := 1.
Definition LOW : Z := 0.

Inductive Pin : Type :=
| PIN_UPPER_SENSOR
| PIN_LOWER_SENSOR
| PIN_AMBIENT.

(** ** [enum class LedMode]

    The enumeration is kept as its underlying integer, so that a value
    outside the four enumerators (the [default:] arms of the sketch) can
    be written down. *)
Definition LedMode : Type := Z.
Definition NIGHT : LedMode := 0.
Definition MORNING : LedMode := 1.
Definition DAY : LedMode := 2.
Definition EVENING : LedMode := 3.

Definition valid_mode (m : LedMode) : Prop :=
  m = NIGHT \/ m = MORNING \/ m = DAY \/ m = EVENING.

(** ** Colours and the pixel buffer *)

(** Modelled from the spec: the FastLED colour types are not part of the
    sketch.  A pixel is the hue/saturation/brightness triple last
    assigned to it (the spec's Color); the conversion to RGB done by the
    library on assignment is not modelled. *)
Record Pixel : Type := CHSV { hue : Z; sat : Z; val : Z }.

(** Modelled from the spec: the value of a pixel in a cleared (all-dark)
    buffer, [CRGB::Black]. *)
Definition Black : Pixel := CHSV 0 0 0.

Abbreviation Frame := (list Pixel).

Definition cleared : Frame := replicate (Z.to_nat NUM_LEDS) Black.

(** ** Observable events and the environment *)

Inductive Event : Type :=
| EvAnalogRead (pin : Pin) (v : Z)
| EvDigitalRead (pin : Pin) (v : Z)
| EvShow (frame : Frame)
| EvDelay (ms : Z).

(** Modelled from the spec: the Sensor Gateway.  What a sensor reports
    may depend on everything that happened so far (in particular on how
    much time the delays have let pass), so each line is a function of
    the trace up to the read. *)
Record World : Type := mkWorld {
  analogIn : Pin -> list Event -> Z;
  digitalIn : Pin -> list Event -> bool
}.

(** The functions of the sketch, for the log of calls. *)
Inductive Routine : Type :=
| FnDayRoutine
| FnMorningRoutine
| FnNightRoutine
| FnEveningRoutine
| FnRainbow (brightness : Z)
| FnLightsFromTop
| FnLightsFromBottom
| FnPink (brightness : Z).

(** ** Program state

    [mode] and [leds] are the two globals of the sketch; [trace] is the
    history of reads, presented frames and delays; [calls] is a ghost log
    of the routines entered, in order. *)
Record State : Type := mkState {
  mode : LedMode;
  leds : Frame;
  trace : list Event;
  calls : list Routine
}.

Definition with_mode (m : LedMode) (s : State) : State :=
  mkState m (leds s) (trace s) (calls s).
Definition with_leds (l : Frame) (s : State) : State :=
  mkState (mode s) l (trace s) (calls s).
Definition log (e : Event) (s : State) : State :=
  mkState (mode s) (leds s) (trace s ++ [e]) (calls s).
Definition called (r : Routine) (s : State) : State :=
  mkState (mode s) (leds s) (trace s) (calls s ++ [r]).

(** The buffer is the fixed-size array [CRGB leds[NUM_LEDS]]. *)
Definition wf (s : State) : Prop := length (leds s) = Z.to_nat NUM_LEDS.

(** State after [setup()]: mode Night, strip cleared; the trace starts
    when [setup()] has returned. *)
Definition boot : State := mkState NIGHT cleared [] [].

(** ** The monad: state passing with failure

    [None] stands for executions the model does not follow: an index
    outside the pixel array, or a loop that outlives its fuel. *)
Definition M (A : Type) : Type := State -> option (A * State).

Definition ret {A} (a : A) : M A := fun s => Some (a, s).

Definition bind {A B} (c : M A) (k : A -> M B) : M B :=
  fun s => match c s with
           | Some (a, s') => k a s'
           | None => None
           end.

Declare Scope prog_scope.
Delimit Scope prog_scope with prog.
Bind Scope prog_scope with M.
Notation "x <- c1 ;; c2" := (bind c1 (fun x => c2))
  (at level 100, c1 at next level, right associativity) : prog_scope.
Notation "c1 ;; c2" := (bind c1 (fun _ => c2))
  (at level 100, right associativity) : prog_scope.
Local Open Scope prog_scope.

Definition get_mode : M LedMode := fun s => Some (mode s, s).
Definition set_mode (m : LedMode) : M unit := fun s => Some (tt, with_mode m s).
Definition emit (e : Event) : M unit := fun s => Some (tt, log e s).
Definition enter (r : Routine) : M unit := fun s => Some (tt, called r s).
Definition when (b : bool) (c : M unit) : M unit := if b then c else ret tt.

(** [if (x)] on a C integer. *)
Definition truthy (x : Z) : bool := negb (x =? 0).

(** [leds[i] = c].  Writing outside the array is undefined in C++. *)
Definition setLed (i : Z) (c : Pixel) : M unit :=
  fun s =>
    if (0 <=? i) && (i <? Z.of_nat (length (leds s)))
    then Some (tt, with_leds (<[Z.to_nat i := c]> (leds s)) s)
    else None.

(** Modelled from the spec: the Frame Sink's present operation,
    [FastLED.show()]. *)
Definition FastLED_show : M unit := fun s => emit (EvShow (leds s)) s.

(** Modelled from the spec: the Frame Sink's zero-buffer operation,
    [FastLED.clear(writeData)]; with [writeData] the dark frame is also
    presented. *)
Definition FastLED_clear (writeData : bool) : M unit :=
  fun s =>
    let s' := with_leds (replicate (length (leds s)) Black) s in
    if writeData then FastLED_show s' else Some (tt, s').

(** Modelled from the spec: [delay(ms)] blocks for [ms] milliseconds. *)
Definition delay (ms : Z) : M unit := emit (EvDelay ms).

(** [for (x = init; cond x; x = step x) a = body x a], where [a] holds
    the locals the loop carries from one iteration to the next. *)
Fixpoint for_loop {A} (fuel : nat) (cond : Z -> bool) (step : Z -> Z)
    (body : Z -> A -> M A) (x : Z) (a : A) : M A :=
  match fuel with
  | O => fun _ => None
  | S fuel' =>
      if cond x
      then a' <- body x a ;; for_loop fuel' cond step body (step x) a'
      else ret a
  end.

(** A [uint8_t] counter has 256 values. *)
Definition FUEL_U8 : nat := 257.

(** ** The sketch *)

Section Sketch.

Variable w : World.

(** Modelled from the spec: the Sensor Gateway's reads. *)
Definition analogRead (pin : Pin) : M Z :=
  fun s => let v := analogIn w pin (trace s) in
           Some (v, log (EvAnalogRead pin v) s).

Definition digitalRead (pin : Pin) : M Z :=
  fun s => let v := if digitalIn w pin (trace s) then HIGH else LOW in
           Some (v, log (EvDigitalRead pin v) s).

(** [LedMode setLedMode(uint16_t lightLevel)] *)
Definition setLedMode (lightLevel : Z) : M LedMode :=
  m <- get_mode ;;
  (if m =? NIGHT then
     when (lightLevel >? THRESHOLD_MORNING) (set_mode MORNING)
   else if m =? MORNING then
     when (lightLevel >? THRESHOLD_DAY) (set_mode DAY) ;;
     when (lightLevel <? THRESHOLD_NIGHT) (set_mode NIGHT)
   else if m =? DAY then
     when (lightLevel <? THRESHOLD_EVENING) (set_mode EVENING)
   else if m =? EVENING then
     when (lightLevel <? THRESHOLD_NIGHT) (set_mode NIGHT) ;;
     when (lightLevel >? THRESHOLD_DAY) (set_mode DAY)
   else
     set_mode NIGHT) ;;
  get_mode.

(** [uint8_t hueFactor = 255 / NUM_LEDS] *)
Definition hueFactor : Z := u8 (255 / NUM_LEDS).

(** The second loop of both fill animations: "then fade the LEDs out". *)
Definition fadeOut : M unit :=
  for_loop FUEL_U8 (fun brightness => brightness >? 0)
    (fun brightness => u8 (brightness - 1))
    (fun brightness _ =>
       for_loop FUEL_U8 (fun led => led <? NUM_LEDS) (fun led => u8 (led + 1))
         (fun led _ =>
            let color := u8 (led * hueFactor) in
            setLed led (CHSV color 255 brightness))
         0 tt ;;
       FastLED_show ;;
       delay 20)
    60 tt.

(** The first loop of [lightsFromTop]: "Fill the LEDs from the top of
    the stairs". *)
Definition fillFromTop : M unit :=
  for_loop FUEL_U8 (fun length => length <? NUM_LEDS)
    (fun length => u8 (length + 1))
    (fun length _ =>
       for_loop FUEL_U8 (fun led => led <? length) (fun led => u8 (led + 1))
         (fun led _ =>
            let color := u8 (led * hueFactor) in
            setLed led (CHSV color 255 60))
         0 tt ;;
       FastLED_show ;;
       delay 10)
    0 tt.

(** [void lightsFromTop()] *)
Definition lightsFromTop : M unit :=
  enter FnLightsFromTop ;;
  fillFromTop ;;
  delay 40000 ;;
  fadeOut ;;
  FastLED_clear true.

(** The first loop of [lightsFromBottom]. *)
Definition fillFromBottom : M unit :=
  for_loop FUEL_U8 (fun length => length >? 0)
    (fun length => u8 (length - 1))
    (fun length _ =>
       for_loop FUEL_U8 (fun led => led >? length) (fun led => u8 (led - 1))
         (fun led _ =>
            let color := u8 (led * hueFactor) in
            setLed led (CHSV color 255 60))
         (u8 (NUM_LEDS - 1)) tt ;;
       FastLED_show ;;
       delay 10)
    (u8 (NUM_LEDS - 1)) tt.

(** [void lightsFromBottom()] *)
Definition lightsFromBottom : M unit :=
  enter FnLightsFromBottom ;;
  fillFromBottom ;;
  delay 40000 ;;
  fadeOut ;;
  FastLED_clear true.

(** One frame of the pink fade: every pixel at [level], present, wait. *)
Definition pinkFrame (level : Z) : M unit :=
  for_loop FUEL_U8 (fun led => led <? NUM_LEDS) (fun led => u8 (led + 1))
    (fun led _ => setLed led (CHSV 200 255 level))
    0 tt ;;
  FastLED_show ;;
  delay 20.

(** [void doPink(uint8_t brightness)] *)
Definition doPink (brightness : Z) : M unit :=
  enter (FnPink brightness) ;;
  for_loop FUEL_U8 (fun level => level <? brightness)
    (fun level => u8 (level + 1))
    (fun level _ => pinkFrame level)
    0 tt ;;
  delay 40000 ;;
  for_loop FUEL_U8 (fun level => level >? 0)
    (fun level => u8 (level - 1))
    (fun level _ => pinkFrame level)
    (u8 (brightness - 1)) tt ;;
  FastLED_clear true.

(** [void doRainbow(uint8_t brightness)]; the outer loop carries the
    local [offset]. *)
Definition doRainbow (brightness : Z) : M unit :=
  enter (FnRainbow brightness) ;;
  _ <- for_loop 2001 (fun counter => counter <? 2000)
    (fun counter => counter + 1)
    (fun _ offset =>
       for_loop (S (Z.to_nat NUM_LEDS)) (fun led => led <? NUM_LEDS)
         (fun led => led + 1)
         (fun led _ =>
            let color := u8 ((led * hueFactor + offset) mod 256) in
            setLed led (CHSV color 255 brightness))
         0 tt ;;
       FastLED_show ;;
       delay 50 ;;
       let offset := offset + 1 in
       ret (if offset >? 255 then 0 else offset))
    0 0 ;;
  FastLED_clear true.

(** [void doDayRoutine()]; [||] reads the lower sensor only when the
    upper one reports nothing. *)
Definition doDayRoutine : M unit :=
  enter FnDayRoutine ;;
  up <- digitalRead PIN_UPPER_SENSOR ;;
  motionDetected <-
    (if truthy up then ret 1
     else lo <- digitalRead PIN_LOWER_SENSOR ;;
          ret (if truthy lo then 1 else 0)) ;;
  when (truthy motionDetected)
    (doPink 80 ;;
     delay 5000).

(** [void doMorningRoutine()] *)
Definition doMorningRoutine : M unit :=
  enter FnMorningRoutine ;;
  up <- digitalRead PIN_UPPER_SENSOR ;;
  motionDetected <-
    (if truthy up then ret 1
     else lo <- digitalRead PIN_LOWER_SENSOR ;;
          ret (if truthy lo then 1 else 0)) ;;
  when (truthy motionDetected)
    (doRainbow 250 ;;
     delay 5000).

(** [void doNightRoutine()] *)
Definition doNightRoutine : M unit :=
  enter FnNightRoutine ;;
  motionUpperDetected <- digitalRead PIN_UPPER_SENSOR ;;
  motionLowerDetected <- digitalRead PIN_LOWER_SENSOR ;;
  when (truthy motionLowerDetected)
    (lightsFromBottom ;;
     delay 2500) ;;
  when (truthy motionUpperDetected)
    (lightsFromTop ;;
     delay 2500).

(** [void doEveningRoutine()]: "same as night routine". *)
Definition doEveningRoutine : M unit :=
  enter FnEveningRoutine ;;
  doNightRoutine.

(** [void loop()]: one pass of the dispatch loop. *)
Definition loop : M unit :=
  a <- analogRead PIN_AMBIENT ;;
  let ambientLight := u16 a in
  m <- setLedMode ambientLight ;;
  set_mode m ;;
  if (m =? MORNING) || (m =? DAY) then doDayRoutine
  else if m =? NIGHT then doNightRoutine
  else if m =? EVENING then doEveningRoutine
  else set_mode NIGHT.

End Sketch.

(** ** Reading a trace *)

(** The frames presented, in order. *)
Definition shown (tr : list Event) : list Frame :=
  flat_map (fun e => match e with EvShow f => [f] | _ => [] end) tr.

(** The sensor reads, in order. *)
Definition is_read (e : Event) : bool :=
  match e with
  | EvAnalogRead _ _ | EvDigitalRead _ _ => true
  | _ => false
  end.

Definition reads (tr : list Event) : list Event := List.filter is_read tr.

(** Milliseconds spent in [delay]. *)
Definition delayed (tr : list Event) : Z :=
  fold_right (fun e t => match e with EvDelay ms => ms + t | _ => t end) 0 tr.

(** What a run from [s] to [s'] added to the trace and to the call log. *)
Definition new_events (s s' : State) : list Event :=
  drop (length (trace s)) (trace s').
Definition new_calls (s s' : State) : list Routine :=
  drop (length (calls s)) (calls s').

(** ** Specification vocabulary *)

(** [s'] continues [s] without touching [mode] or the call log and
    without reading a sensor. *)
Definition quiet_ext (s s' : State) : Prop :=
  wf s' /\ mode s' = mode s /\ calls s' = calls s /\
  exists evs, trace s' = trace s ++ evs /\ reads evs = [].

(** A command that always returns and only writes pixels, presents
    frames and waits. *)
Definition quiet (c : M unit) : Prop :=
  forall s, wf s -> exists s', c s = Some (tt, s') /\ quiet_ext s s'.

(** A quiet command that leaves the buffer cleared. *)
Definition clearing (c : M unit) : Prop :=
  forall s, wf s ->
    exists s', c s = Some (tt, s') /\ quiet_ext s s' /\ leds s' = cleared.

(** An animation routine [r]: from any state it returns, having logged
    its own call and nothing else, read no sensor, kept the mode, and
    left the strip cleared. *)
Definition animation (r : Routine) (c : M unit) : Prop :=
  forall s, wf s ->
    exists s' evs,
      c s = Some (tt, s') /\ wf s' /\ leds s' = cleared /\
      mode s' = mode s /\ calls s' = calls s ++ [r] /\
      trace s' = trace s ++ evs /\ reads evs = [].

(** The gradient colour the fill animations give pixel [i]. *)
Definition gradient (i : Z) : Pixel := CHSV (i * (255 / NUM_LEDS)) 255 60.

(** A frame lit from the top end over [L] pixels: [0, L) hold their
    gradient colour, [L, NUM_LEDS) are dark. *)
Definition top_lit (L : Z) (f : Frame) : Prop :=
  length f = Z.to_nat NUM_LEDS /\
  (forall i : nat, Z.of_nat i < L -> f !! i = Some (gradient (Z.of_nat i))) /\
  (forall i : nat, L <= Z.of_nat i < NUM_LEDS -> f !! i = Some Black).

(** The call log does not steer a command: running it under a longer
    log gives the same run under the longer log. *)
Definition prepend (cs : list Routine) (s : State) : State :=
  mkState (mode s) (leds s) (trace s) (cs ++ calls s).

Definition lift_state {A} (f : State -> State) (r : option (A * State))
    : option (A * State) :=
  match r with
  | Some (a, s) => Some (a, f s)
  | None => None
  end.

Definition ghost_calls {A} (c : M A) : Prop :=
  forall cs s, c (prepend cs s) = lift_state (prepend cs) (c s).

(** The observable part of a result: everything but the call log. *)
Definition observable {A} (r : option (A * State))
    : option (A * (LedMode * Frame * list Event)) :=
  match r with
  | Some (a, s) => Some (a, (mode s, leds s, trace s))
  | None => None
  end.

(** The motion samples the routines take at entry: the upper line is
    read first, the lower line right after it. *)
Definition b2z (b : bool) : Z := if b then HIGH else LOW.

Definition upper_sample (w : World) (s : State) : bool :=
  digitalIn w PIN_UPPER_SENSOR (trace s).

Definition lower_sample (w : World) (s : State) : bool :=
  digitalIn w PIN_LOWER_SENSOR
    (trace s ++ [EvDigitalRead PIN_UPPER_SENSOR (b2z (upper_sample w s))]).

(** The transition table of the mode classifier as the specification
    words it. *)
Definition nextMode_spec (current : LedMode) (intensity : Z) : LedMode :=
  if current =? NIGHT then
    if intensity >? 300 then MORNING else NIGHT
  else if current =? MORNING then
    if intensity >? 500 then DAY
    else if intensity <? 100 then NIGHT
    else MORNING
  else if current =? DAY then
    if intensity <? 300 then EVENING else DAY
  else if current =? EVENING then
    if intensity <? 100 then NIGHT
    else if intensity >? 500 then DAY
    else EVENING
  else NIGHT.

(** The classifier fed a sequence of readings; returns the mode after
    each reading. *)
Fixpoint classify (readings : list Z) : M (list LedMode) :=
  match readings with
  | [] => ret []
  | r :: rest =>
      m <- setLedMode r ;;
      set_mode m ;;
      ms <- classify rest ;;
      ret (m :: ms)
  end.

(** The state [loop] hands to the routine it dispatches to: the ambient
    reading logged and the classifier's answer stored in [mode]. *)
Definition ambient_sample (w : World) (s : State) : Z :=
  u16 (analogIn w PIN_AMBIENT (trace s)).

Definition classified (w : World) (s : State) : State :=
  with_mode (nextMode_spec (mode s) (ambient_sample w s))
    (log (EvAnalogRead PIN_AMBIENT (analogIn w PIN_AMBIENT (trace s))) s).

(** Projections of a run, for statements about concrete runs. *)
Definition trace_of {A} (r : option (A * State)) : option (list Event) :=
  match r with Some (_, s) => Some (trace s) | None => None end.
Definition calls_of {A} (r : option (A * State)) : option (list Routine) :=
  match r with Some (_, s) => Some (calls s) | None => None end.
Definition leds_of {A} (r : option (A * State)) : option Frame :=
  match r with Some (_, s) => Some (leds s) | None => None end.

(** The frame on the strip when the long dwell [delay(40000)] begins:
    the last frame presented before it. *)
Fixpoint dwell_frame_from (last : option Frame) (tr : list Event)
    : option Frame :=
  match tr with
  | [] => None
  | EvShow f :: rest => dwell_frame_from (Some f) rest
  | EvDelay ms :: rest =>
      if ms =? 40000 then last else dwell_frame_from last rest
  | _ :: rest => dwell_frame_from last rest
  end.

Definition dwell_frame (tr : list Event) : option Frame :=
  dwell_frame_from None tr.

(** Environments for concrete runs: constant sensor lines. *)
Definition steady (ambient : Z) (upper lower : bool) : World :=
  mkWorld (fun _ _ => ambient)
          (fun pin _ => match pin with
                        | PIN_UPPER_SENSOR => upper
                        | PIN_LOWER_SENSOR => lower
                        | PIN_AMBIENT => false
                        end).

(** Somebody stands at the bottom of the stairs all along; the upper
    sensor fires only once something has happened after the two reads
    at the routine's entry. *)
Definition late_upper (entry : nat) : World :=
  mkWorld (fun _ _ => 0)
          (fun pin tr => match pin with
                         | PIN_UPPER_SENSOR => (entry + 2 <? length tr)%nat
                         | PIN_LOWER_SENSOR => true
                         | PIN_AMBIENT => false
                         end).

(** A command that always returns, having logged exactly the calls
    [cs], read no sensor and kept the mode. *)
Definition runs (cs : list Routine) (c : M unit) : Prop :=
  forall s, wf s ->
    exists s' evs,
      c s = Some (tt, s') /\ wf s' /\ mode s' = mode s /\
      calls s' = calls s ++ cs /\
      trace s' = trace s ++ evs /\ reads evs = [].

(** The state of [doNightRoutine] once both sensors are sampled. *)
Definition night_entry (w : World) (s : State) : State :=
  log (EvDigitalRead PIN_LOWER_SENSOR (b2z (lower_sample w s)))
    (log (EvDigitalRead PIN_UPPER_SENSOR (b2z (upper_sample w s)))
       (called FnNightRoutine s)).

(** The state of [doDayRoutine] once [motionDetected] is computed: the
    lower sensor is sampled only when the upper one is low. *)
Definition day_entry (w : World) (s : State) : State :=
  if upper_sample w s
  then log (EvDigitalRead PIN_UPPER_SENSOR HIGH) (called FnDayRoutine s)
  else log (EvDigitalRead PIN_LOWER_SENSOR (b2z (lower_sample w s)))
         (log (EvDigitalRead PIN_UPPER_SENSOR LOW) (called FnDayRoutine s)).

Definition day_motion (w : World) (s : State) : bool :=
  upper_sample w s || lower_sample w s.

(** The calls one pass of [doNightRoutine] and [doDayRoutine] log. *)
Definition night_calls (w : World) (s : State) : list Routine :=
  FnNightRoutine ::
    (if lower_sample w s then [FnLightsFromBottom] else []) ++
    (if upper_sample w s then [FnLightsFromTop] else []).

Definition day_calls (w : World) (s : State) : list Routine :=
  FnDayRoutine :: (if day_motion w s then [FnPink 80] else []).

(** The calls one pass of [loop] logs, by the mode the classifier
    answers. *)
Definition loop_calls (w : World) (s : State) : list Routine :=
  let s1 := classified w s in
  let m := mode s1 in
  if (m =? MORNING) || (m =? DAY) then day_calls w s1
  else if m =? NIGHT then night_calls w s1
  else if m =? EVENING then FnEveningRoutine :: night_calls w s1
  else [].

Definition dwell_of {A} (r : option (A * State)) : option Frame :=
  match trace_of r with
  | Some tr => dwell_frame tr
  | None => None
  end.

(** One frame of the pink fade as the strip shows it. *)
Definition pink (level : Z) : Frame :=
  replicate (Z.to_nat NUM_LEDS) (CHSV 200 255 level).

(** ** Vocabulary for frames and timing *)

(** A command that always returns, reads no sensor, logs no call and
    keeps the mode, having presented [n] frames and spent [d] ms in
    [delay]. *)
Definition paced (n : nat) (d : Z) (c : M unit) : Prop :=
  forall s, wf s ->
    exists s' evs,
      c s = Some (tt, s') /\ wf s' /\ mode s' = mode s /\
      calls s' = calls s /\ trace s' = trace s ++ evs /\
      reads evs = [] /\ length (shown evs) = n /\ delayed evs = d.

(** The same, leaving the buffer cleared. *)
Definition paced_clearing (n : nat) (d : Z) (c : M unit) : Prop :=
  forall s, wf s ->
    exists s' evs,
      c s = Some (tt, s') /\ wf s' /\ mode s' = mode s /\
      calls s' = calls s /\ trace s' = trace s ++ evs /\
      reads evs = [] /\ length (shown evs) = n /\ delayed evs = d /\
      leds s' = cleared.

(** A command that always returns, logs no call and keeps the mode,
    and adds exactly the events [evs] whatever the state it starts in. *)
Definition plays (evs : list Event) (c : M unit) : Prop :=
  forall s, wf s ->
    exists s',
      c s = Some (tt, s') /\ wf s' /\ mode s' = mode s /\
      calls s' = calls s /\ trace s' = trace s ++ evs.

(** The whole strip at its gradient hues and one brightness. *)
Definition gradient_frame (brightness : Z) : Frame :=
  map (fun i => CHSV (Z.of_nat i * (255 / NUM_LEDS)) 255 brightness)
      (seq 0 (Z.to_nat NUM_LEDS)).

(** The rainbow with its hues advanced by [offset]. *)
Definition rainbow_frame (brightness offset : Z) : Frame :=
  map (fun i =>
         CHSV ((Z.of_nat i * (255 / NUM_LEDS) + offset) mod 256) 255 brightness)
      (seq 0 (Z.to_nat NUM_LEDS)).

(** A frame lit from the bottom end down to, and not including, pixel
    [L]: ([L], NUM_LEDS) hold their gradient colour, [0, L] are dark. *)
Definition bottom_lit (L : Z) (f : Frame) : Prop :=
  length f = Z.to_nat NUM_LEDS /\
  (forall i : nat, L < Z.of_nat i < NUM_LEDS ->
     f !! i = Some (gradient (Z.of_nat i))) /\
  (forall i : nat, Z.of_nat i <= L -> Z.of_nat i < NUM_LEDS ->
     f !! i = Some Black).

(** [void setup()].  The pin modes, the strip registration and the
    power limit configure the hardware and leave no mark on the state;
    the ambient reading is taken and, without DEBUG, dropped. *)
Definition setup (w : World) : M unit :=
  _ <- analogRead w PIN_AMBIENT ;;
  set_mode NIGHT ;;
  FastLED_clear true.

(** [n] consecutive calls of [loop()], and [setup()] followed by them:
    the order in which the Arduino core calls the two. *)
Fixpoint passes (w : World) (n : nat) : M unit :=
  match n with
  | O => ret tt
  | S n' => loop w ;; passes w n'
  end.

Definition sketch (w : World) (n : nat) : M unit :=
  setup w ;; passes w n.

(** The readings under which a mode is kept. *)
Definition in_band (m : LedMode) (intensity : Z) : Prop :=
  (m = NIGHT /\ intensity <= 300) \/
  (m = MORNING /\ 100 <= intensity <= 500) \/
  (m = DAY /\ 300 <= intensity) \/
  (m = EVENING /\ 100 <= intensity <= 500).

(** Milliseconds one pass of [loop] spends in [delay], by the mode the
    classifier answers and the motion samples. *)
Definition pass_delay (w : World) (s : State) : Z :=
  let s1 := classified w s in
  let m := mode s1 in
  if (m =? MORNING) || (m =? DAY) then
    if day_motion w s1 then 43180 + 5000 else 0
  else if (m =? NIGHT) || (m =? EVENING) then
    (if lower_sample w s1 then 42320 + 2500 else 0) +
    (if upper_sample w s1 then 42330 + 2500 else 0)
  else 0.

(** Frames one pass of [loop] presents. *)
Definition pass_frames (w : World) (s : State) : nat :=
  let s1 := classified w s in
  let m := mode s1 in
  if (m =? MORNING) || (m =? DAY) then
    if day_motion w s1 then 160 else 0
  else if (m =? NIGHT) || (m =? EVENING) then
    (if lower_sample w s1 then 173 else 0) +
    (if upper_sample w s1 then 174 else 0)
  else 0.

(** A routine-level command: it always returns, reads no sensor, keeps
    the mode, logs the calls [cs], presents [n] frames and spends [d]
    ms in [delay]; the buffer is untouched when no frame was presented
    and cleared otherwise. *)
Definition performs (cs : list Routine) (n : nat) (d : Z) (c : M unit)
    : Prop :=
  forall s, wf s ->
    exists s' evs,
      c s = Some (tt, s') /\ wf s' /\ mode s' = mode s /\
      calls s' = calls s ++ cs /\ trace s' = trace s ++ evs /\
      reads evs = [] /\ length (shown evs) = n /\ delayed evs = d /\
      leds s' = match n with O => leds s | S _ => cleared end.

(** The state of [doMorningRoutine] once [motionDetected] is computed. *)
Definition morning_entry (w : World) (s : State) : State :=
  if upper_sample w s
  then log (EvDigitalRead PIN_UPPER_SENSOR HIGH) (called FnMorningRoutine s)
  else log (EvDigitalRead PIN_LOWER_SENSOR (b2z (lower_sample w s)))
         (log (EvDigitalRead PIN_UPPER_SENSOR LOW)
            (called FnMorningRoutine s)).

(** The motion reads of [doDayRoutine] and [doMorningRoutine]: [||]
    skips the lower sensor when the upper one is high. *)
Definition either_reads (w : World) (s : State) : list Event :=
  if upper_sample w s
  then [EvDigitalRead PIN_UPPER_SENSOR HIGH]
  else [EvDigitalRead PIN_UPPER_SENSOR LOW;
        EvDigitalRead PIN_LOWER_SENSOR (b2z (lower_sample w s))].

(** The motion reads of [doNightRoutine]. *)
Definition both_reads (w : World) (s : State) : list Event :=
  [EvDigitalRead PIN_UPPER_SENSOR (b2z (upper_sample w s));
   EvDigitalRead PIN_LOWER_SENSOR (b2z (lower_sample w s))].

(** The reads of one pass of [loop]: the ambient light, then the motion
    sensors as the dispatched routine reads them. *)
Definition pass_reads (w : World) (s : State) : list Event :=
  let s1 := classified w s in
  let m := mode s1 in
  EvAnalogRead PIN_AMBIENT (analogIn w PIN_AMBIENT (trace s)) ::
  (if (m =? MORNING) || (m =? DAY) then either_reads w s1
   else if (m =? NIGHT) || (m =? EVENING) then both_reads w s1
   else []).

(** The calls [loop] can make. *)
Definition dispatched (r : Routine) : Prop :=
  r = FnDayRoutine \/ r = FnNightRoutine \/ r = FnEveningRoutine \/
  r = FnLightsFromTop \/ r = FnLightsFromBottom \/ r = FnPink 80.

(** ** The monad and the loop rule *)

Lemma bind_Some {A B} (c : M A) (k : A -> M B) s a s' :
  c s = Some (a, s') -> bind c k s = k a s'.
Proof. intros H. unfold bind. rewrite H. reflexivity. Qed.

(** The rule for [for]: an invariant [I] on counter, locals and state,
    and a measure [m] of the counter that every iteration decreases.
    With more fuel than the measure the loop returns, with the
    invariant and the negated condition. *)
Lemma for_loop_total {A} (I : Z -> A -> State -> Prop) (m : Z -> nat)
    (cond : Z -> bool) (step : Z -> Z) (body : Z -> A -> M A) :
  (forall x a s, I x a s -> cond x = true ->
     exists a' s', body x a s = Some (a', s') /\
                   I (step x) a' s' /\ (m (step x) < m x)%nat) ->
  forall fuel x a s, I x a s -> (m x < fuel)%nat ->
    exists x' a' s', for_loop fuel cond step body x a s = Some (a', s') /\
                     I x' a' s' /\ cond x' = false.
Proof.
  intros Hbody fuel. induction fuel as [| fuel IH]; intros x a s Hi Hm.
  - lia.
  - cbn [for_loop]. destruct (cond x) eqn:Ec.
    + destruct (Hbody x a s Hi Ec) as (a1 & s1 & E1 & Hi1 & Hlt).
      rewrite (bind_Some _ _ _ _ _ E1).
      apply IH; [exact Hi1 | lia].
    + exists x, a, s. repeat split; assumption.
Qed.

(** ** Quiet commands *)

Lemma reads_app (a b : list Event) : reads (a ++ b) = reads a ++ reads b.
Proof. unfold reads. apply List.filter_app. Qed.

Lemma shown_app (a b : list Event) : shown (a ++ b) = shown a ++ shown b.
Proof. unfold shown. apply flat_map_app. Qed.

Lemma delayed_app (a b : list Event) : delayed (a ++ b) = delayed a + delayed b.
Proof.
  induction a as [| e a IH]; cbn; [reflexivity |].
  fold (delayed (a ++ b)). fold (delayed a). rewrite IH.
  destruct e; lia.
Qed.

Lemma quiet_ext_refl s : wf s -> quiet_ext s s.
Proof.
  intros H. repeat split; try assumption.
  exists []. split; [symmetry; apply app_nil_r | reflexivity].
Qed.

Lemma quiet_ext_trans s1 s2 s3 :
  quiet_ext s1 s2 -> quiet_ext s2 s3 -> quiet_ext s1 s3.
Proof.
  intros (_ & Hm1 & Hc1 & e1 & Ht1 & Hr1) (Hw & Hm2 & Hc2 & e2 & Ht2 & Hr2).
  repeat split; try congruence.
  exists (e1 ++ e2). split.
  - rewrite Ht2, Ht1. symmetry. apply app_assoc.
  - rewrite reads_app, Hr1, Hr2. reflexivity.
Qed.

Lemma quiet_ret : quiet (ret tt).
Proof. intros s Hs. exists s. split; [reflexivity | apply quiet_ext_refl, Hs]. Qed.

Lemma quiet_bind (c1 c2 : M unit) :
  quiet c1 -> quiet c2 -> quiet (c1 ;; c2).
Proof.
  intros H1 H2 s Hs.
  destruct (H1 s Hs) as (s1 & E1 & X1).
  destruct (H2 s1 (proj1 X1)) as (s2 & E2 & X2).
  exists s2. split.
  - rewrite (bind_Some _ _ _ _ _ E1). exact E2.
  - eapply quiet_ext_trans; eassumption.
Qed.

Lemma quiet_when b (c : M unit) : quiet c -> quiet (when b c).
Proof. intros H. destruct b; [exact H | apply quiet_ret]. Qed.

Lemma quiet_show : quiet FastLED_show.
Proof.
  intros s Hs. eexists. split; [reflexivity |].
  repeat split; try assumption.
  exists [EvShow (leds s)]. split; reflexivity.
Qed.

Lemma quiet_delay ms : quiet (delay ms).
Proof.
  intros s Hs. eexists. split; [reflexivity |].
  repeat split; try assumption.
  exists [EvDelay ms]. split; reflexivity.
Qed.

Lemma quiet_setLed i c : 0 <= i < NUM_LEDS -> quiet (setLed i c).
Proof.
  intros Hi s Hs. unfold setLed. red in Hs.
  assert (E : (0 <=? i) && (i <? Z.of_nat (length (leds s))) = true).
  { apply andb_true_iff. split; [apply Z.leb_le | apply Z.ltb_lt]; lia. }
  rewrite E. eexists. split; [reflexivity |].
  repeat split; cbn.
  - red. cbn. rewrite length_insert. exact Hs.
  - exists []. split; [symmetry; apply app_nil_r | reflexivity].
Qed.

(** After [FastLED.clear(true)] the buffer is the cleared one. *)
Lemma clear_spec s :
  wf s ->
  exists s', FastLED_clear true s = Some (tt, s') /\ quiet_ext s s' /\
             leds s' = cleared /\
             trace s' = trace s ++ [EvShow cleared].
Proof.
  intros Hs. red in Hs. unfold FastLED_clear, FastLED_show, emit, log. cbn.
  rewrite Hs. fold cleared. eexists. split; [reflexivity |].
  assert (Hw : length cleared = Z.to_nat NUM_LEDS)
    by (unfold cleared; apply length_replicate).
  split; [| split; reflexivity].
  split; [exact Hw |]. split; [reflexivity |]. split; [reflexivity |].
  exists [EvShow cleared]. split; reflexivity.
Qed.

Lemma quiet_clear : quiet (FastLED_clear true).
Proof.
  intros s Hs. destruct (clear_spec s Hs) as (s' & E & X & _).
  exists s'. split; assumption.
Qed.

(** The loop rule specialised to quiet bodies: [J] bounds the counter. *)
Lemma quiet_for (J : Z -> Prop) (m : Z -> nat) fuel cond step
    (body : Z -> unit -> M unit) x0 :
  (forall x, J x -> cond x = true ->
     quiet (body x tt) /\ J (step x) /\ (m (step x) < m x)%nat) ->
  J x0 -> (m x0 < fuel)%nat ->
  quiet (for_loop fuel cond step body x0 tt).
Proof.
  intros Hbody Hj Hm s Hs.
  destruct (for_loop_total (fun x _ s' => J x /\ quiet_ext s s') m
              cond step body) with (fuel := fuel) (x := x0) (a := tt) (s := s)
    as (x' & a' & s' & E & (_ & X) & _).
  - intros x [] s1 (Hx & X1) Ec.
    destruct (Hbody x Hx Ec) as (Hq & Hx' & Hlt).
    destruct (Hq s1 (proj1 X1)) as (s2 & E2 & X2).
    exists tt, s2.
    split; [exact E2 |]. split; [| exact Hlt].
    split; [exact Hx' | eapply quiet_ext_trans; eassumption].
  - split; [exact Hj | apply quiet_ext_refl, Hs].
  - exact Hm.
  - destruct a'. exists s'. split; assumption.
Qed.

Lemma clearing_clear : clearing (FastLED_clear true).
Proof.
  intros s Hs. destruct (clear_spec s Hs) as (s' & E & X & L & _).
  exists s'. auto.
Qed.

Lemma clearing_bind (c1 c2 : M unit) :
  quiet c1 -> clearing c2 -> clearing (c1 ;; c2).
Proof.
  intros H1 H2 s Hs.
  destruct (H1 s Hs) as (s1 & E1 & X1).
  destruct (H2 s1 (proj1 X1)) as (s2 & E2 & X2 & L).
  exists s2. split; [| split; [eapply quiet_ext_trans; eassumption | exact L]].
  rewrite (bind_Some _ _ _ _ _ E1). exact E2.
Qed.

Lemma animation_intro r (c : M unit) :
  clearing c -> animation r (enter r ;; c).
Proof.
  intros Hc s Hs.
  destruct (Hc (called r s) Hs) as (s' & E & (Hw & Hm & Hcs & evs & Ht & Hr) & L).
  exists s', evs. repeat split; assumption.
Qed.

(** ** The animations return *)

Lemma u8_small x : 0 <= x < 256 -> u8 x = x.
Proof. intros H. unfold u8. apply Z.mod_small. exact H. Qed.

Lemma hueFactor_val : hueFactor = 2.
Proof. reflexivity. Qed.

Create HintDb quiet.
#[local] Hint Resolve quiet_ret quiet_bind quiet_when quiet_show quiet_delay
  quiet_clear quiet_setLed clearing_clear clearing_bind : quiet.

(** [for (uint8_t led = 0; led < hi; ++led) leds[led] = colour led]. *)
Lemma quiet_paint hi (colour : Z -> Pixel) :
  0 <= hi <= NUM_LEDS ->
  quiet (for_loop FUEL_U8 (fun led => led <? hi) (fun led => u8 (led + 1))
           (fun led _ => setLed led (colour led)) 0 tt).
Proof.
  intros Hhi.
  apply quiet_for with (J := fun led => 0 <= led <= hi)
                       (m := fun led => Z.to_nat (hi - led)).
  - intros led Hl Ec. apply Z.ltb_lt in Ec. unfold NUM_LEDS in Hhi.
    rewrite u8_small by lia.
    split; [apply quiet_setLed; unfold NUM_LEDS; lia | split; lia].
  - lia.
  - unfold FUEL_U8, NUM_LEDS in *. lia.
Qed.

(** [for (uint8_t led = NUM_LEDS - 1; led > lo; --led) leds[led] = ...]. *)
Lemma quiet_paint_down lo (colour : Z -> Pixel) :
  0 <= lo < NUM_LEDS ->
  quiet (for_loop FUEL_U8 (fun led => led >? lo) (fun led => u8 (led - 1))
           (fun led _ => setLed led (colour led)) (u8 (NUM_LEDS - 1)) tt).
Proof.
  intros Hlo. unfold NUM_LEDS in Hlo.
  apply quiet_for with (J := fun led => lo <= led < NUM_LEDS)
                       (m := fun led => Z.to_nat led).
  - intros led Hl Ec. apply Z.gtb_lt in Ec. unfold NUM_LEDS in *.
    rewrite u8_small by lia.
    split; [apply quiet_setLed; unfold NUM_LEDS; lia | split; lia].
  - rewrite u8_small; unfold NUM_LEDS; lia.
  - rewrite u8_small; unfold FUEL_U8, NUM_LEDS; lia.
Qed.

Lemma quiet_fadeOut : quiet fadeOut.
Proof.
  unfold fadeOut.
  apply quiet_for with (J := fun b => 0 <= b <= 60)
                       (m := fun b => Z.to_nat b).
  - intros b Hb Ec. apply Z.gtb_lt in Ec. rewrite (u8_small (b - 1)) by lia.
    split; [| split; lia].
    apply quiet_bind; [| auto with quiet].
    apply quiet_paint with (colour := fun led => CHSV (u8 (led * hueFactor)) 255 b).
    unfold NUM_LEDS. lia.
  - lia.
  - unfold FUEL_U8. lia.
Qed.

Lemma quiet_fillFromTop : quiet fillFromTop.
Proof.
  unfold fillFromTop.
  apply quiet_for with (J := fun k => 0 <= k <= NUM_LEDS)
                       (m := fun k => Z.to_nat (NUM_LEDS - k)).
  - intros k Hk Ec. apply Z.ltb_lt in Ec. unfold NUM_LEDS in *.
    rewrite (u8_small (k + 1)) by lia.
    split; [| split; lia].
    apply quiet_bind; [| auto with quiet].
    apply quiet_paint with (colour := fun led => CHSV (u8 (led * hueFactor)) 255 60).
    unfold NUM_LEDS. lia.
  - unfold NUM_LEDS. lia.
  - unfold FUEL_U8, NUM_LEDS. lia.
Qed.

Lemma quiet_fillFromBottom : quiet fillFromBottom.
Proof.
  unfold fillFromBottom.
  apply quiet_for with (J := fun k => 0 <= k < NUM_LEDS)
                       (m := fun k => Z.to_nat k).
  - intros k Hk Ec. apply Z.gtb_lt in Ec. unfold NUM_LEDS in *.
    rewrite (u8_small (k - 1)) by lia.
    split; [| split; lia].
    apply quiet_bind; [| auto with quiet].
    apply quiet_paint_down
      with (colour := fun led => CHSV (u8 (led * hueFactor)) 255 60).
    unfold NUM_LEDS. lia.
  - rewrite u8_small; unfold NUM_LEDS; lia.
  - rewrite u8_small; unfold FUEL_U8, NUM_LEDS; lia.
Qed.

Lemma quiet_pinkFrame level : quiet (pinkFrame level).
Proof.
  unfold pinkFrame. apply quiet_bind; [| auto with quiet].
  apply quiet_paint with (colour := fun _ => CHSV 200 255 level).
  unfold NUM_LEDS. lia.
Qed.

Lemma lightsFromTop_animation : animation FnLightsFromTop lightsFromTop.
Proof.
  apply animation_intro.
  apply clearing_bind; [apply quiet_fillFromTop |].
  apply clearing_bind; [apply quiet_delay |].
  apply clearing_bind; [apply quiet_fadeOut | apply clearing_clear].
Qed.

Lemma lightsFromBottom_animation :
  animation FnLightsFromBottom lightsFromBottom.
Proof.
  apply animation_intro.
  apply clearing_bind; [apply quiet_fillFromBottom |].
  apply clearing_bind; [apply quiet_delay |].
  apply clearing_bind; [apply quiet_fadeOut | apply clearing_clear].
Qed.

(** [doPink] returns for every [uint8_t] argument. *)
Lemma doPink_animation brightness :
  0 <= brightness < 256 -> animation (FnPink brightness) (doPink brightness).
Proof.
  intros Hb. apply animation_intro.
  apply clearing_bind.
  { apply quiet_for with (J := fun l => 0 <= l <= brightness)
                         (m := fun l => Z.to_nat (brightness - l)).
    - intros l Hl Ec. apply Z.ltb_lt in Ec. rewrite (u8_small (l + 1)) by lia.
      split; [apply quiet_pinkFrame | split; lia].
    - lia.
    - unfold FUEL_U8. lia. }
  apply clearing_bind; [apply quiet_delay |].
  apply clearing_bind; [| apply clearing_clear].
  assert (Hs : 0 <= u8 (brightness - 1) < 256)
    by (unfold u8; apply Z.mod_pos_bound; lia).
  apply quiet_for with (J := fun l => 0 <= l < 256)
                       (m := fun l => Z.to_nat l).
  - intros l Hl Ec. apply Z.gtb_lt in Ec. rewrite (u8_small (l - 1)) by lia.
    split; [apply quiet_pinkFrame | split; lia].
  - exact Hs.
  - unfold FUEL_U8. lia.
Qed.

(** ** The mode classifier *)

Lemma setLedMode_eq lightLevel s :
  setLedMode lightLevel s =
  Some (nextMode_spec (mode s) lightLevel,
        with_mode (nextMode_spec (mode s) lightLevel) s).
Proof.
  destruct s as [m l t c].
  unfold setLedMode, nextMode_spec, bind, get_mode, when, set_mode, ret,
    with_mode, THRESHOLD_NIGHT, THRESHOLD_MORNING, THRESHOLD_DAY,
    THRESHOLD_EVENING.
  cbn [mode leds trace calls].
  destruct (m =? NIGHT) eqn:En.
  { apply Z.eqb_eq in En. subst m.
    destruct (lightLevel >? 300); reflexivity. }
  destruct (m =? MORNING) eqn:Em.
  { apply Z.eqb_eq in Em. subst m.
    destruct (Z.gtb_spec lightLevel 500), (Z.ltb_spec lightLevel 100);
      cbn; try reflexivity; lia. }
  destruct (m =? DAY) eqn:Ed.
  { apply Z.eqb_eq in Ed. subst m.
    destruct (lightLevel <? 300); reflexivity. }
  destruct (m =? EVENING) eqn:Ee.
  { apply Z.eqb_eq in Ee. subst m.
    destruct (Z.gtb_spec lightLevel 500), (Z.ltb_spec lightLevel 100);
      cbn; try reflexivity; lia. }
  reflexivity.
Qed.

Lemma nextMode_spec_valid m i : valid_mode (nextMode_spec m i).
Proof.
  unfold nextMode_spec, valid_mode.
  destruct (m =? NIGHT), (m =? MORNING), (m =? DAY), (m =? EVENING),
    (i >? 300), (i >? 500), (i <? 100), (i <? 300); auto.
Qed.

(** C1. [setLedMode] is total and implements exactly the transition
    table: Night goes to Morning iff the light level is above 300 and
    otherwise stays; Morning goes to Day iff above 500, to Night iff
    below 100, and otherwise stays; Day goes to Evening iff below 300
    and otherwise stays; Evening goes to Night iff below 100, to Day iff
    above 500, and otherwise stays; a mode outside the enumeration gives
    Night.  The result is always one of the four modes. *)
Theorem setLedMode_transition (lightLevel : Z) (s : State) :
  exists m',
    setLedMode lightLevel s = Some (m', with_mode m' s) /\
    m' = nextMode_spec (mode s) lightLevel /\
    valid_mode m' /\
    (mode s = NIGHT ->
       (m' = MORNING <-> lightLevel > 300) /\
       (m' = NIGHT <-> ~ lightLevel > 300)) /\
    (mode s = MORNING ->
       (m' = DAY <-> lightLevel > 500) /\
       (m' = NIGHT <-> lightLevel < 100) /\
       (m' = MORNING <-> ~ lightLevel > 500 /\ ~ lightLevel < 100)) /\
    (mode s = DAY ->
       (m' = EVENING <-> lightLevel < 300) /\
       (m' = DAY <-> ~ lightLevel < 300)) /\
    (mode s = EVENING ->
       (m' = NIGHT <-> lightLevel < 100) /\
       (m' = DAY <-> lightLevel > 500) /\
       (m' = EVENING <-> ~ lightLevel < 100 /\ ~ lightLevel > 500)) /\
    (~ valid_mode (mode s) -> m' = NIGHT).
Proof.
  exists (nextMode_spec (mode s) lightLevel).
  split; [apply setLedMode_eq |]. split; [reflexivity |].
  split; [apply nextMode_spec_valid |].
  unfold nextMode_spec, valid_mode, NIGHT, MORNING, DAY, EVENING.
  repeat split; intros;
    repeat match goal with
           | H : mode s = _ |- _ => rewrite H in *; cbn in *
           | |- context [?a =? ?b] => destruct (Z.eqb_spec a b)
           | |- context [?a >? ?b] => destruct (Z.gtb_spec a b)
           | |- context [?a <? ?b] => destruct (Z.ltb_spec a b)
           | H : context [?a >? ?b] |- _ => destruct (Z.gtb_spec a b)
           | H : context [?a <? ?b] |- _ => destruct (Z.ltb_spec a b)
           end; try lia; try tauto.
Qed.

(** C2 as stated fails: from Morning a light level of exactly 100 does
    not give Night. *)
Lemma morning_at_100_is_not_night :
  ~ (exists s', setLedMode 100 (with_mode MORNING boot) = Some (NIGHT, s')).
Proof.
  intros (s' & H). rewrite setLedMode_eq in H. discriminate H.
Qed.

(** C2, amended.  Both exits are strict: from Night a level of exactly
    300 stays Night (301 is the first to give Morning), and from Morning
    a level of exactly 100 stays Morning (99 is the first to give
    Night). *)
Theorem strict_boundaries (s : State) :
  setLedMode 300 (with_mode NIGHT s) = Some (NIGHT, with_mode NIGHT s) /\
  setLedMode 301 (with_mode NIGHT s) = Some (MORNING, with_mode MORNING s) /\
  setLedMode 100 (with_mode MORNING s) = Some (MORNING, with_mode MORNING s) /\
  setLedMode 99 (with_mode MORNING s) = Some (NIGHT, with_mode NIGHT s).
Proof.
  rewrite !setLedMode_eq. repeat split; reflexivity.
Qed.

(** C7. Hysteresis: fed any sequence of readings that are each 350 or
    450, the classifier started in Day answers Day after every reading,
    and started in Evening answers Evening after every reading. *)
Theorem hysteresis (readings : list Z) (s : State) :
  Forall (fun r => r = 350 \/ r = 450) readings ->
  mode s = DAY \/ mode s = EVENING ->
  exists ms s',
    classify readings s = Some (ms, s') /\
    Forall (fun m => m = mode s) ms /\
    length ms = length readings /\
    mode s' = mode s.
Proof.
  intros Hr. revert s. induction Hr as [| r rest Hr _ IH]; intros s Hm.
  - exists [], s. repeat split. constructor.
  - cbn [classify].
    rewrite (bind_Some _ _ _ _ _ (setLedMode_eq r s)).
    assert (E : nextMode_spec (mode s) r = mode s).
    { destruct Hr as [-> | ->], Hm as [-> | ->]; reflexivity. }
    rewrite E.
    set (s1 := with_mode (mode s) (with_mode (mode s) s)).
    destruct (IH s1 Hm) as (ms & s' & Ec & Hall & Hlen & Hmode).
    exists (mode s :: ms), s'. split.
    + unfold bind at 1. unfold set_mode at 1. fold s1.
      rewrite (bind_Some _ _ _ _ _ Ec). reflexivity.
    + split; [constructor; [reflexivity | exact Hall] |].
      split; [cbn; congruence | exact Hmode].
Qed.

Lemma hysteresis_witness :
  exists ms s',
    classify [350; 450; 450; 350; 450] (with_mode DAY boot) = Some (ms, s') /\
    Forall (fun m => m = DAY) ms /\
    length ms = 5%nat /\
    mode s' = DAY.
Proof.
  apply (hysteresis [350; 450; 450; 350; 450] (with_mode DAY boot)).
  - repeat (constructor; [first [left; reflexivity | right; reflexivity] |]).
    constructor.
  - left. reflexivity.
Defined.

(** ** The dispatch routines *)

Lemma runs_ret : runs [] (ret tt).
Proof.
  intros s Hs. exists s, []. repeat split; try assumption.
  all: symmetry; apply app_nil_r.
Qed.

Lemma runs_delay ms : runs [] (delay ms).
Proof.
  intros s Hs. exists (log (EvDelay ms) s), [EvDelay ms].
  repeat split; try assumption. symmetry; apply app_nil_r.
Qed.

Lemma runs_bind a b (c1 c2 : M unit) :
  runs a c1 -> runs b c2 -> runs (a ++ b) (c1 ;; c2).
Proof.
  intros H1 H2 s Hs.
  destruct (H1 s Hs) as (s1 & e1 & E1 & W1 & M1 & C1 & T1 & R1).
  destruct (H2 s1 W1) as (s2 & e2 & E2 & W2 & M2 & C2 & T2 & R2).
  exists s2, (e1 ++ e2). split.
  { rewrite (bind_Some _ _ _ _ _ E1). exact E2. }
  split; [exact W2 |]. split; [congruence |].
  split; [rewrite C2, C1; symmetry; apply app_assoc |].
  split; [rewrite T2, T1; symmetry; apply app_assoc |].
  rewrite reads_app, R1, R2. reflexivity.
Qed.

Lemma runs_when (b : bool) cs (c : M unit) :
  runs cs c -> runs (if b then cs else []) (when b c).
Proof. intros H. destruct b; [exact H | apply runs_ret]. Qed.

Lemma runs_animation r (c : M unit) : animation r c -> runs [r] c.
Proof.
  intros H s Hs. destruct (H s Hs) as (s' & evs & E & W & _ & X).
  exists s', evs. split; [exact E |]. split; [exact W | exact X].
Qed.

Lemma truthy_b2z b : truthy (b2z b) = b.
Proof. destruct b; reflexivity. Qed.

Lemma doNightRoutine_unfold w s :
  doNightRoutine w s =
  (when (lower_sample w s) (lightsFromBottom ;; delay 2500) ;;
   when (upper_sample w s) (lightsFromTop ;; delay 2500)) (night_entry w s).
Proof.
  rewrite <- (truthy_b2z (lower_sample w s)), <- (truthy_b2z (upper_sample w s)).
  reflexivity.
Qed.

Lemma doDayRoutine_unfold w s :
  doDayRoutine w s =
  when (day_motion w s) (doPink 80 ;; delay 5000) (day_entry w s).
Proof.
  unfold doDayRoutine, day_motion, day_entry, bind, enter, digitalRead.
  cbn [trace called log]. fold (upper_sample w s).
  destruct (upper_sample w s) eqn:Eu; cbn [truthy HIGH LOW negb Z.eqb ret orb].
  - reflexivity.
  - rewrite <- (truthy_b2z (lower_sample w s)).
    unfold lower_sample. rewrite Eu. cbn [b2z].
    destruct (digitalIn w PIN_LOWER_SENSOR _); reflexivity.
Qed.

Lemma doEveningRoutine_unfold w s :
  doEveningRoutine w s = doNightRoutine w (called FnEveningRoutine s).
Proof. reflexivity. Qed.

Lemma loop_unfold w s :
  loop w s =
  let s1 := classified w s in
  let m := mode s1 in
  (if (m =? MORNING) || (m =? DAY) then doDayRoutine w
   else if m =? NIGHT then doNightRoutine w
   else if m =? EVENING then doEveningRoutine w
   else set_mode NIGHT) s1.
Proof.
  unfold loop, analogRead. unfold bind at 1.
  rewrite (bind_Some _ _ _ _ _ (setLedMode_eq _ _)).
  reflexivity.
Qed.

(** What a run added to the logs, when the result extends the start. *)
Lemma new_calls_app s s' cs : calls s' = calls s ++ cs -> new_calls s s' = cs.
Proof. intros H. unfold new_calls. rewrite H. apply drop_app_length. Qed.

Lemma new_events_app s s' evs :
  trace s' = trace s ++ evs -> new_events s s' = evs.
Proof. intros H. unfold new_events. rewrite H. apply drop_app_length. Qed.

(** [doNightRoutine] returns; its two reads come first and are its only
    reads, and the calls it logs are decided by those two samples. *)
Lemma doNightRoutine_spec w s :
  wf s ->
  exists s' evs,
    doNightRoutine w s = Some (tt, s') /\ wf s' /\ mode s' = mode s /\
    calls s' = calls s ++ night_calls w s /\
    trace s' = trace (night_entry w s) ++ evs /\ reads evs = [].
Proof.
  intros Hs. rewrite doNightRoutine_unfold.
  assert (Hw : wf (night_entry w s)) by exact Hs.
  destruct (runs_bind _ _ _ _
              (runs_when (lower_sample w s) _ _
                 (runs_bind _ _ _ _
                    (runs_animation _ _ lightsFromBottom_animation)
                    (runs_delay 2500)))
              (runs_when (upper_sample w s) _ _
                 (runs_bind _ _ _ _
                    (runs_animation _ _ lightsFromTop_animation)
                    (runs_delay 2500)))
              (night_entry w s) Hw)
    as (s' & evs & E & W & Hm & Hc & Ht & Hr).
  exists s', evs. split; [exact E |]. split; [exact W |].
  split; [exact Hm |]. split; [| split; assumption].
  rewrite Hc. unfold night_calls. cbn [night_entry calls log called].
  rewrite <- app_assoc. cbn [app].
  destruct (lower_sample w s), (upper_sample w s); reflexivity.
Qed.

Lemma doDayRoutine_spec w s :
  wf s ->
  exists s' evs,
    doDayRoutine w s = Some (tt, s') /\ wf s' /\ mode s' = mode s /\
    calls s' = calls s ++ day_calls w s /\
    trace s' = trace (day_entry w s) ++ evs /\ reads evs = [].
Proof.
  intros Hs. rewrite doDayRoutine_unfold.
  assert (Hw : wf (day_entry w s)).
  { unfold day_entry. destruct (upper_sample w s); exact Hs. }
  assert (Hp : animation (FnPink 80) (doPink 80))
    by (apply doPink_animation; lia).
  destruct (runs_when (day_motion w s) _ _
              (runs_bind _ _ _ _ (runs_animation _ _ Hp) (runs_delay 5000))
              (day_entry w s) Hw)
    as (s' & evs & E & W & Hm & Hc & Ht & Hr).
  exists s', evs. split; [exact E |]. split; [exact W |].
  assert (Hme : mode (day_entry w s) = mode s /\
                calls (day_entry w s) = calls s ++ [FnDayRoutine]).
  { unfold day_entry. destruct (upper_sample w s); split; reflexivity. }
  destruct Hme as (Hme & Hce).
  split; [congruence |]. split; [| split; assumption].
  rewrite Hc, Hce. unfold day_calls. rewrite <- app_assoc. cbn [app].
  destruct (day_motion w s); reflexivity.
Qed.

(** One pass of [loop] returns, with the mode the classifier answered
    and the calls of the routine that mode is dispatched to. *)
Lemma loop_spec w s :
  wf s ->
  exists s',
    loop w s = Some (tt, s') /\ wf s' /\
    mode s' = mode (classified w s) /\
    calls s' = calls s ++ loop_calls w s.
Proof.
  intros Hs. rewrite loop_unfold. unfold loop_calls. cbv zeta.
  assert (Hw : wf (classified w s)) by exact Hs.
  assert (Hc0 : calls (classified w s) = calls s) by reflexivity.
  pose proof (nextMode_spec_valid (mode s) (ambient_sample w s)) as Hv.
  change (nextMode_spec (mode s) (ambient_sample w s))
    with (mode (classified w s)) in Hv.
  destruct Hv as [Hv | [Hv | [Hv | Hv]]]; rewrite Hv; cbn [Z.eqb orb
    NIGHT MORNING DAY EVENING Pos.eqb].
  - destruct (doNightRoutine_spec w _ Hw) as (s' & evs & E & W & M' & C' & _).
    exists s'. rewrite <- Hv, <- Hc0. auto.
  - destruct (doDayRoutine_spec w _ Hw) as (s' & evs & E & W & M' & C' & _).
    exists s'. rewrite <- Hv, <- Hc0. auto.
  - destruct (doDayRoutine_spec w _ Hw) as (s' & evs & E & W & M' & C' & _).
    exists s'. rewrite <- Hv, <- Hc0. auto.
  - rewrite doEveningRoutine_unfold.
    assert (Hw' : wf (called FnEveningRoutine (classified w s))) by exact Hw.
    destruct (doNightRoutine_spec w _ Hw') as (s' & evs & E & W & M' & C' & _).
    exists s'. rewrite <- Hv, <- Hc0.
    split; [exact E |]. split; [exact W |]. split; [exact M' |].
    rewrite C'. cbn [calls called]. rewrite <- app_assoc. reflexivity.
Qed.

(** ** The call log is a ghost *)

Lemma ghost_ret {A} (a : A) : ghost_calls (ret a).
Proof. intros cs s. reflexivity. Qed.

Lemma ghost_bind {A B} (c : M A) (k : A -> M B) :
  ghost_calls c -> (forall a, ghost_calls (k a)) -> ghost_calls (bind c k).
Proof.
  intros Hc Hk cs s. unfold bind. rewrite Hc.
  destruct (c s) as [[a s1] |]; cbn [lift_state]; [apply Hk | reflexivity].
Qed.

Lemma ghost_if {A} (b : bool) (c1 c2 : M A) :
  ghost_calls c1 -> ghost_calls c2 -> ghost_calls (if b then c1 else c2).
Proof. intros H1 H2. destruct b; assumption. Qed.

Lemma ghost_when (b : bool) (c : M unit) :
  ghost_calls c -> ghost_calls (when b c).
Proof. intros H. apply ghost_if; [exact H | apply ghost_ret]. Qed.

Lemma ghost_emit e : ghost_calls (emit e).
Proof. intros cs s. reflexivity. Qed.

Lemma ghost_show : ghost_calls FastLED_show.
Proof. intros cs s. reflexivity. Qed.

Lemma ghost_clear b : ghost_calls (FastLED_clear b).
Proof. intros cs s. destruct b; reflexivity. Qed.

Lemma ghost_setLed i c : ghost_calls (setLed i c).
Proof.
  intros cs s. unfold setLed. cbn [prepend leds].
  destruct ((0 <=? i) && (i <? Z.of_nat (length (leds s)))); reflexivity.
Qed.

Lemma ghost_enter r : ghost_calls (enter r).
Proof.
  intros cs s. unfold enter, called, prepend. cbn.
  rewrite <- app_assoc. reflexivity.
Qed.

Lemma ghost_digitalRead w pin : ghost_calls (digitalRead w pin).
Proof. intros cs s. reflexivity. Qed.

Lemma ghost_for {A} fuel cond step (body : Z -> A -> M A) :
  (forall x a, ghost_calls (body x a)) ->
  forall x a, ghost_calls (for_loop fuel cond step body x a).
Proof.
  intros Hb. induction fuel as [| fuel IH]; intros x a.
  - intros cs s. reflexivity.
  - cbn [for_loop]. apply ghost_if; [| apply ghost_ret].
    apply ghost_bind; [apply Hb | intros a'; apply IH].
Qed.

Ltac ghost_step :=
  lazymatch goal with
  | |- ghost_calls (bind _ _) => apply ghost_bind; [| intros ?]
  | |- ghost_calls (for_loop _ _ _ _ _ _) => apply ghost_for; intros ? ?
  | |- ghost_calls (when _ _) => apply ghost_when
  | |- ghost_calls (if _ then _ else _) => apply ghost_if
  | |- ghost_calls (ret _) => apply ghost_ret
  | |- ghost_calls (emit _) => apply ghost_emit
  | |- ghost_calls (delay _) => apply ghost_emit
  | |- ghost_calls FastLED_show => apply ghost_show
  | |- ghost_calls (FastLED_clear _) => apply ghost_clear
  | |- ghost_calls (setLed _ _) => apply ghost_setLed
  | |- ghost_calls (enter _) => apply ghost_enter
  | |- ghost_calls (digitalRead _ _) => apply ghost_digitalRead
  end.

Ltac ghost := repeat (try progress cbv beta zeta; ghost_step).

Lemma ghost_lightsFromTop : ghost_calls lightsFromTop.
Proof. unfold lightsFromTop, fillFromTop, fadeOut. ghost. Qed.

Lemma ghost_lightsFromBottom : ghost_calls lightsFromBottom.
Proof. unfold lightsFromBottom, fillFromBottom, fadeOut. ghost. Qed.

Lemma ghost_doNightRoutine w : ghost_calls (doNightRoutine w).
Proof.
  unfold doNightRoutine. ghost.
  - apply ghost_lightsFromBottom.
  - apply ghost_lightsFromTop.
Qed.

Lemma observable_lift {A} f (r : option (A * State)) :
  (forall s, mode (f s) = mode s /\ leds (f s) = leds s /\
             trace (f s) = trace s) ->
  observable (lift_state f r) = observable r.
Proof.
  intros Hf. destruct r as [[a s] |]; [| reflexivity].
  cbn. destruct (Hf s) as (-> & -> & ->). reflexivity.
Qed.

(** A run's observable part does not depend on the call log it starts
    with. *)
Lemma observable_calls {A} (c : M A) m l t cs1 cs2 :
  ghost_calls c ->
  observable (c (mkState m l t cs1)) = observable (c (mkState m l t cs2)).
Proof.
  intros Hc.
  assert (E : forall cs, mkState m l t cs = prepend cs (mkState m l t [])).
  { intros cs. unfold prepend. cbn. rewrite app_nil_r. reflexivity. }
  rewrite (E cs1), (E cs2), !Hc, !observable_lift; auto.
Qed.

(** ** Properties of the dispatch *)

(** C4 as stated fails: in a pass in mode Day with motion below only,
    it is the pink fade that runs, and "fill from bottom" does not. *)
Lemma day_lower_motion_runs_no_fill :
  mode (classified (steady 400 false true) (with_mode DAY boot)) = DAY /\
  lower_sample (steady 400 false true)
    (classified (steady 400 false true) (with_mode DAY boot)) = true /\
  upper_sample (steady 400 false true)
    (classified (steady 400 false true) (with_mode DAY boot)) = false /\
  ~ (exists s',
       loop (steady 400 false true) (with_mode DAY boot) = Some (tt, s') /\
       In FnLightsFromBottom (new_calls (with_mode DAY boot) s') /\
       ~ In FnLightsFromTop (new_calls (with_mode DAY boot) s')).
Proof.
  split; [reflexivity |]. split; [reflexivity |]. split; [reflexivity |].
  intros (s' & E & Hin & _).
  destruct (loop_spec (steady 400 false true) (with_mode DAY boot))
    as (s2 & E2 & _ & _ & Hc); [reflexivity |].
  rewrite E in E2. injection E2 as ->.
  rewrite (new_calls_app _ _ _ Hc) in Hin.
  vm_compute in Hin.
  destruct Hin as [H | [H | []]]; discriminate H.
Qed.

(** C4, amended.  In a pass where the lower zone reports motion and the
    upper zone does not: in mode Day the pink fade [doPink(80)] runs and
    neither fill animation does; it is in mode Night (and Evening) that
    "fill from bottom" runs and "fill from top" does not. *)
Theorem lower_motion_dispatch (w : World) (s : State) :
  wf s ->
  lower_sample w (classified w s) = true ->
  upper_sample w (classified w s) = false ->
  exists s',
    loop w s = Some (tt, s') /\
    (mode (classified w s) = DAY ->
       new_calls s s' = [FnDayRoutine; FnPink 80]) /\
    (mode (classified w s) = NIGHT ->
       new_calls s s' = [FnNightRoutine; FnLightsFromBottom]) /\
    (mode (classified w s) = EVENING ->
       new_calls s s' =
       [FnEveningRoutine; FnNightRoutine; FnLightsFromBottom]).
Proof.
  intros Hs Hl Hu.
  destruct (loop_spec w s Hs) as (s' & E & _ & _ & Hc).
  exists s'. split; [exact E |].
  rewrite (new_calls_app _ _ _ Hc).
  unfold loop_calls, day_calls, night_calls, day_motion. cbv zeta.
  rewrite Hl, Hu.
  repeat split; intros ->; reflexivity.
Qed.

Lemma lower_motion_dispatch_witness :
  exists s',
    loop (steady 400 false true) (with_mode DAY boot) = Some (tt, s') /\
    (mode (classified (steady 400 false true) (with_mode DAY boot)) = DAY ->
       new_calls (with_mode DAY boot) s' = [FnDayRoutine; FnPink 80]) /\
    (mode (classified (steady 400 false true) (with_mode DAY boot)) = NIGHT ->
       new_calls (with_mode DAY boot) s' =
       [FnNightRoutine; FnLightsFromBottom]) /\
    (mode (classified (steady 400 false true) (with_mode DAY boot)) = EVENING ->
       new_calls (with_mode DAY boot) s' =
       [FnEveningRoutine; FnNightRoutine; FnLightsFromBottom]).
Proof.
  apply (lower_motion_dispatch (steady 400 false true) (with_mode DAY boot));
    reflexivity.
Defined.

(** C6. The Evening routine behaves as the Night routine: from the same
    mode, buffer and history the two give the same result, mode, buffer
    and trace.  [loop] sends Night to the Night routine, Evening to the
    Evening routine, which is the Night routine, and Morning and Day to
    the Day routine, whose animation is the pink fade.  No pass of
    [loop], whatever the mode and the sensors, enters [doRainbow] or
    [doMorningRoutine]. *)
Theorem dispatch_routing (w : World) (s : State) :
  observable (doEveningRoutine w s) = observable (doNightRoutine w s) /\
  (mode (classified w s) = NIGHT ->
     loop w s = doNightRoutine w (classified w s)) /\
  (mode (classified w s) = EVENING ->
     loop w s = doEveningRoutine w (classified w s) /\
     loop w s = doNightRoutine w (called FnEveningRoutine (classified w s))) /\
  (mode (classified w s) = MORNING \/ mode (classified w s) = DAY ->
     loop w s = doDayRoutine w (classified w s) /\
     loop w s = when (day_motion w (classified w s)) (doPink 80 ;; delay 5000)
                  (day_entry w (classified w s))) /\
  (wf s ->
     exists s',
       loop w s = Some (tt, s') /\
       valid_mode (mode s') /\
       (forall b, ~ In (FnRainbow b) (new_calls s s')) /\
       ~ In FnMorningRoutine (new_calls s s')).
Proof.
  split.
  { rewrite doEveningRoutine_unfold. destruct s as [m l t cs].
    apply observable_calls, ghost_doNightRoutine. }
  split.
  { intros H. rewrite loop_unfold. cbv zeta. rewrite H. reflexivity. }
  split.
  { intros H. rewrite loop_unfold. cbv zeta. rewrite H. split; reflexivity. }
  split.
  { intros H. rewrite <- doDayRoutine_unfold. rewrite loop_unfold. cbv zeta.
    destruct H as [H | H]; rewrite H; split; reflexivity. }
  intros Hs.
  destruct (loop_spec w s Hs) as (s' & E & _ & Hm & Hc).
  exists s'. split; [exact E |].
  split; [rewrite Hm; apply nextMode_spec_valid |].
  rewrite (new_calls_app _ _ _ Hc).
  unfold loop_calls, day_calls, night_calls. cbv zeta.
  split; [intros b |];
    destruct ((mode (classified w s) =? MORNING) || (mode (classified w s) =? DAY)),
      (mode (classified w s) =? NIGHT), (mode (classified w s) =? EVENING),
      (day_motion w (classified w s)), (lower_sample w (classified w s)),
      (upper_sample w (classified w s)); cbn; intuition discriminate.
Qed.

Lemma dispatch_routing_witness :
  exists s',
    loop (steady 400 true true) boot = Some (tt, s') /\
    valid_mode (mode s') /\
    (forall b, ~ In (FnRainbow b) (new_calls boot s')) /\
    ~ In FnMorningRoutine (new_calls boot s').
Proof.
  apply (dispatch_routing (steady 400 true true) boot). reflexivity.
Defined.

(** C9. With both zones reporting motion at entry, one call of the
    Night routine runs both fills one after the other: "fill from
    bottom" returns, then its 2500 ms delay passes, and only then "fill
    from top" starts, followed by a second 2500 ms delay, so the fixed
    delay is spent twice. *)
Theorem night_both_zones (w : World) (s : State) :
  wf s ->
  upper_sample w s = true ->
  lower_sample w s = true ->
  exists sB sT,
    lightsFromBottom (night_entry w s) = Some (tt, sB) /\
    lightsFromTop (log (EvDelay 2500) sB) = Some (tt, sT) /\
    doNightRoutine w s = Some (tt, log (EvDelay 2500) sT) /\
    new_calls s (log (EvDelay 2500) sT) =
      [FnNightRoutine; FnLightsFromBottom; FnLightsFromTop] /\
    new_events s (log (EvDelay 2500) sT) =
      [EvDigitalRead PIN_UPPER_SENSOR HIGH; EvDigitalRead PIN_LOWER_SENSOR HIGH]
      ++ new_events (night_entry w s) sB ++ [EvDelay 2500]
      ++ new_events (log (EvDelay 2500) sB) sT ++ [EvDelay 2500] /\
    delayed (new_events s (log (EvDelay 2500) sT)) =
      delayed (new_events (night_entry w s) sB)
      + delayed (new_events (log (EvDelay 2500) sB) sT) + 2 * 2500.
Proof.
  intros Hs Hu Hl.
  assert (Hw : wf (night_entry w s)) by exact Hs.
  destruct (lightsFromBottom_animation _ Hw)
    as (sB & evB & EB & WB & _ & _ & CB & TB & _).
  assert (WB' : wf (log (EvDelay 2500) sB)) by exact WB.
  destruct (lightsFromTop_animation _ WB')
    as (sT & evT & ET & WT & _ & _ & CT & TT & _).
  exists sB, sT.
  split; [exact EB |]. split; [exact ET |].
  split.
  { rewrite doNightRoutine_unfold, Hu, Hl. unfold when.
    unfold bind at 1. rewrite (bind_Some _ _ _ _ _ EB).
    unfold delay at 1, emit at 1.
    rewrite (bind_Some _ _ _ _ _ ET). reflexivity. }
  rewrite (new_events_app _ _ _ TB), (new_events_app _ _ _ TT).
  assert (Hc : calls (log (EvDelay 2500) sT) =
               calls s ++ [FnNightRoutine; FnLightsFromBottom; FnLightsFromTop]).
  { cbn [calls log]. rewrite CT. cbn [calls log]. rewrite CB.
    cbn [calls night_entry log called]. rewrite <- !app_assoc. reflexivity. }
  assert (Ht : trace (log (EvDelay 2500) sT) =
               trace s ++
               [EvDigitalRead PIN_UPPER_SENSOR HIGH;
                EvDigitalRead PIN_LOWER_SENSOR HIGH]
               ++ evB ++ [EvDelay 2500] ++ evT ++ [EvDelay 2500]).
  { cbn [trace log]. rewrite TT. cbn [trace log]. rewrite TB.
    cbn [trace night_entry log called]. rewrite Hu, Hl.
    rewrite <- !app_assoc. reflexivity. }
  rewrite (new_calls_app _ _ _ Hc), (new_events_app _ _ _ Ht).
  split; [reflexivity |]. split; [reflexivity |].
  rewrite !delayed_app. cbn. lia.
Qed.

Lemma night_both_zones_witness :
  exists sB sT,
    lightsFromBottom (night_entry (steady 0 true true) boot) = Some (tt, sB) /\
    lightsFromTop (log (EvDelay 2500) sB) = Some (tt, sT) /\
    doNightRoutine (steady 0 true true) boot =
      Some (tt, log (EvDelay 2500) sT) /\
    new_calls boot (log (EvDelay 2500) sT) =
      [FnNightRoutine; FnLightsFromBottom; FnLightsFromTop] /\
    new_events boot (log (EvDelay 2500) sT) =
      [EvDigitalRead PIN_UPPER_SENSOR HIGH; EvDigitalRead PIN_LOWER_SENSOR HIGH]
      ++ new_events (night_entry (steady 0 true true) boot) sB
      ++ [EvDelay 2500]
      ++ new_events (log (EvDelay 2500) sB) sT ++ [EvDelay 2500] /\
    delayed (new_events boot (log (EvDelay 2500) sT)) =
      delayed (new_events (night_entry (steady 0 true true) boot) sB)
      + delayed (new_events (log (EvDelay 2500) sB) sT) + 2 * 2500.
Proof.
  apply (night_both_zones (steady 0 true true) boot); reflexivity.
Defined.

(** C10. The Night routine reads each motion sensor once, the upper
    one first and the lower one next, before anything else happens, and
    reads nothing afterwards.  Whether "fill from top" runs is decided
    by the upper sample taken at entry alone: it runs iff that sample
    was high, and two environments that agree on the two entry samples
    give the same run however they differ later.  So motion that sets
    in at the upper zone after entry does not start the upper fill in
    that call. *)
Theorem night_samples_at_entry (w : World) (s : State) :
  wf s ->
  exists s' rest,
    doNightRoutine w s = Some (tt, s') /\
    new_events s s' =
      EvDigitalRead PIN_UPPER_SENSOR (b2z (upper_sample w s))
      :: EvDigitalRead PIN_LOWER_SENSOR (b2z (lower_sample w s))
      :: rest /\
    reads rest = [] /\
    (In FnLightsFromTop (new_calls s s') <-> upper_sample w s = true) /\
    (forall w',
       upper_sample w' s = upper_sample w s ->
       lower_sample w' s = lower_sample w s ->
       doNightRoutine w' s = doNightRoutine w s).
Proof.
  intros Hs.
  destruct (doNightRoutine_spec w s Hs) as (s' & rest & E & _ & _ & Hc & Ht & Hr).
  exists s', rest. split; [exact E |].
  split.
  { apply new_events_app. rewrite Ht. cbn [trace night_entry log called].
    rewrite <- !app_assoc. reflexivity. }
  split; [exact Hr |].
  split.
  { rewrite (new_calls_app _ _ _ Hc). unfold night_calls.
    destruct (lower_sample w s), (upper_sample w s); cbn;
      intuition discriminate. }
  intros w' Hu Hl. rewrite !doNightRoutine_unfold.
  unfold night_entry. rewrite Hu, Hl. reflexivity.
Qed.

Lemma night_samples_at_entry_witness :
  exists s' rest,
    doNightRoutine (late_upper 0) boot = Some (tt, s') /\
    new_events boot s' =
      EvDigitalRead PIN_UPPER_SENSOR LOW
      :: EvDigitalRead PIN_LOWER_SENSOR HIGH
      :: rest /\
    reads rest = [] /\
    (In FnLightsFromTop (new_calls boot s') <-> false = true) /\
    (forall w',
       upper_sample w' boot = false ->
       lower_sample w' boot = true ->
       doNightRoutine w' boot = doNightRoutine (late_upper 0) boot).
Proof.
  apply (night_samples_at_entry (late_upper 0) boot). reflexivity.
Defined.

(** ** The growth phase of "fill from top" *)

Lemma gradient_not_black i : gradient i <> Black.
Proof. unfold gradient, Black. intros H. discriminate H. Qed.

Lemma code_gradient led :
  0 <= led < NUM_LEDS -> CHSV (u8 (led * hueFactor)) 255 60 = gradient led.
Proof.
  intros H. unfold gradient. rewrite hueFactor_val.
  change (255 / NUM_LEDS) with 2.
  rewrite u8_small by (unfold NUM_LEDS in H; lia). reflexivity.
Qed.

Lemma top_lit_cleared : top_lit 0 cleared.
Proof.
  unfold top_lit, cleared. split; [apply length_replicate |].
  split; intros i Hi; [lia |].
  apply lookup_replicate_2. lia.
Qed.

Lemma top_lit_insert q j (l : Frame) :
  top_lit q l -> 0 <= j <= q -> j < NUM_LEDS ->
  top_lit (Z.max (j + 1) q) (<[Z.to_nat j := gradient j]> l).
Proof.
  intros (Hlen & Hlit & Hdark) Hj Hn.
  split; [rewrite length_insert; exact Hlen |].
  split; intros i Hi.
  - destruct (decide (Z.to_nat j = i)) as [<- | Hne].
    + rewrite list_lookup_insert_eq by lia.
      rewrite Z2Nat.id by lia. reflexivity.
    + rewrite list_lookup_insert_ne by exact Hne. apply Hlit. lia.
  - rewrite list_lookup_insert_ne by lia. apply Hdark. lia.
Qed.

Lemma setLed_ok i c s :
  0 <= i < Z.of_nat (length (leds s)) ->
  setLed i c s = Some (tt, with_leds (<[Z.to_nat i := c]> (leds s)) s).
Proof.
  intros H. unfold setLed.
  replace ((0 <=? i) && (i <? Z.of_nat (length (leds s)))) with true;
    [reflexivity |].
  symmetry. apply andb_true_iff. split; [apply Z.leb_le | apply Z.ltb_lt]; lia.
Qed.

(** The inner loop of the growth phase at lit-length [k]: it repaints
    [0, k) and touches nothing else. *)
Lemma paint_top k p s :
  0 <= p <= k -> k <= NUM_LEDS -> top_lit p (leds s) ->
  exists s',
    for_loop FUEL_U8 (fun led => led <? k) (fun led => u8 (led + 1))
      (fun led _ =>
         let color := u8 (led * hueFactor) in setLed led (CHSV color 255 60))
      0 tt s = Some (tt, s') /\
    top_lit k (leds s') /\
    mode s' = mode s /\ calls s' = calls s /\ trace s' = trace s.
Proof.
  intros Hp Hk Hlit. unfold NUM_LEDS in Hk.
  destruct (for_loop_total
              (fun j (_ : unit) s1 =>
                 0 <= j <= k /\ top_lit (Z.max j p) (leds s1) /\
                 mode s1 = mode s /\ calls s1 = calls s /\ trace s1 = trace s)
              (fun j => Z.to_nat (k - j))
              (fun led => led <? k) (fun led => u8 (led + 1))
              (fun led _ =>
                 let color := u8 (led * hueFactor) in
                 setLed led (CHSV color 255 60)))
    with (fuel := FUEL_U8) (x := 0) (a := tt) (s := s)
    as (j & [] & s' & E & (Hj & Hl & Hm & Hc & Ht) & Ec).
  - intros j [] s1 (Hj & Hl & Hm & Hc & Ht) Ec. apply Z.ltb_lt in Ec.
    cbv zeta. rewrite code_gradient by (unfold NUM_LEDS; lia).
    rewrite setLed_ok
      by (rewrite (proj1 Hl); unfold NUM_LEDS; lia).
    eexists tt, _. split; [reflexivity |].
    rewrite u8_small by lia.
    split; [| lia].
    split; [lia |]. split; [| cbn; auto].
    cbn [leds with_leds].
    replace (Z.max (j + 1) p) with (Z.max (j + 1) (Z.max j p)) by lia.
    apply top_lit_insert; [exact Hl | lia | unfold NUM_LEDS; lia].
  - split; [lia |]. split; [| auto].
    replace (Z.max 0 p) with p by lia. exact Hlit.
  - unfold FUEL_U8. lia.
  - apply Z.ltb_ge in Ec.
    exists s'. split; [exact E |].
    replace (Z.max j p) with k in Hl by lia. auto.
Qed.

(** The growth phase from a cleared buffer: frame number [L] (counting
    from 0) is lit over exactly [L] pixels, for every [L] below
    [NUM_LEDS]; the buffer is left lit over [NUM_LEDS - 1] pixels. *)
Lemma fillFromTop_frames s :
  leds s = cleared ->
  exists s' evs,
    fillFromTop s = Some (tt, s') /\
    top_lit (NUM_LEDS - 1) (leds s') /\
    mode s' = mode s /\ calls s' = calls s /\
    trace s' = trace s ++ evs /\ reads evs = [] /\
    length (shown evs) = Z.to_nat NUM_LEDS /\
    forall L, 0 <= L < NUM_LEDS ->
      exists f, shown evs !! Z.to_nat L = Some f /\ top_lit L f.
Proof.
  intros Hclr. unfold fillFromTop.
  destruct (for_loop_total
              (fun k (_ : unit) s1 =>
                 0 <= k <= NUM_LEDS /\
                 top_lit (Z.max (k - 1) 0) (leds s1) /\
                 mode s1 = mode s /\ calls s1 = calls s /\
                 exists evs,
                   trace s1 = trace s ++ evs /\ reads evs = [] /\
                   length (shown evs) = Z.to_nat k /\
                   forall L, 0 <= L < k ->
                     exists f, shown evs !! Z.to_nat L = Some f /\ top_lit L f)
              (fun k => Z.to_nat (NUM_LEDS - k))
              (fun length => length <? NUM_LEDS)
              (fun length => u8 (length + 1))
              (fun length _ =>
                 for_loop FUEL_U8 (fun led => led <? length)
                   (fun led => u8 (led + 1))
                   (fun led _ =>
                      let color := u8 (led * hueFactor) in
                      setLed led (CHSV color 255 60))
                   0 tt ;;
                 FastLED_show ;;
                 delay 10))
    with (fuel := FUEL_U8) (x := 0) (a := tt) (s := s)
    as (k & [] & s' & E & (Hk & Hl & Hm & Hc & evs & Ht & Hr & Hlen & Hfr) & Ec).
  - intros k [] s1 (Hk & Hl & Hm & Hc & evs & Ht & Hr & Hlen & Hfr) Ec.
    apply Z.ltb_lt in Ec. unfold NUM_LEDS in Hk, Ec.
    destruct (paint_top k (Z.max (k - 1) 0) s1) as (s2 & E2 & Hl2 & Hm2 & Hc2 & Ht2);
      [lia | unfold NUM_LEDS; lia | exact Hl |].
    exists tt, (log (EvDelay 10) (log (EvShow (leds s2)) s2)).
    split; [rewrite (bind_Some _ _ _ _ _ E2); reflexivity |].
    rewrite u8_small by lia.
    split; [| unfold NUM_LEDS; lia].
    split; [unfold NUM_LEDS; lia |].
    split.
    { cbn [leds log]. replace (Z.max (k + 1 - 1) 0) with k by lia. exact Hl2. }
    split; [cbn; congruence |]. split; [cbn; congruence |].
    exists (evs ++ [EvShow (leds s2); EvDelay 10]).
    split.
    { cbn [trace log]. rewrite Ht2, Ht, <- !app_assoc. reflexivity. }
    split; [rewrite reads_app, Hr; reflexivity |].
    rewrite shown_app. cbn [shown flat_map app].
    split; [rewrite length_app, Hlen; cbn; lia |].
    intros L HL. destruct (Z.eq_dec L k) as [-> | Hne].
    + exists (leds s2). split; [| exact Hl2].
      apply list_lookup_middle. lia.
    + destruct (Hfr L) as (f & Hf & Hlf); [lia |].
      exists f. split; [| exact Hlf].
      rewrite lookup_app_l by lia. exact Hf.
  - split; [unfold NUM_LEDS; lia |].
    split; [rewrite Hclr; exact top_lit_cleared |].
    split; [reflexivity |]. split; [reflexivity |].
    exists []. split; [symmetry; apply app_nil_r |].
    split; [reflexivity |]. split; [reflexivity |].
    intros L HL. lia.
  - unfold FUEL_U8, NUM_LEDS. lia.
  - apply Z.ltb_ge in Ec. assert (k = NUM_LEDS) as -> by lia.
    exists s', evs.
    split; [exact E |].
    split; [replace (NUM_LEDS - 1) with (Z.max (NUM_LEDS - 1) 0)
              by (unfold NUM_LEDS; lia); exact Hl |].
    auto 10.
Qed.

(** C8. Started on a cleared buffer, "fill from top" returns, and the
    frame it presents at lit-length [L] (its frame number [L], for each
    [L] from 0 up to [NUM_LEDS - 1]) has every pixel [i] of [0, L) at
    the colour of hue [i * (255 / NUM_LEDS)], saturation 255 and
    brightness 60, which is not the cleared colour, and every pixel of
    [L, NUM_LEDS) still cleared. *)
Theorem lightsFromTop_growth_frames (s : State) :
  leds s = cleared ->
  exists s' evs,
    lightsFromTop s = Some (tt, s') /\
    trace s' = trace s ++ evs /\
    forall L, 0 <= L < NUM_LEDS ->
      exists f,
        shown evs !! Z.to_nat L = Some f /\
        length f = Z.to_nat NUM_LEDS /\
        (forall i : nat, Z.of_nat i < L ->
           f !! i = Some (CHSV (Z.of_nat i * (255 / NUM_LEDS)) 255 60) /\
           CHSV (Z.of_nat i * (255 / NUM_LEDS)) 255 60 <> Black) /\
        (forall i : nat, L <= Z.of_nat i < NUM_LEDS -> f !! i = Some Black).
Proof.
  intros Hclr.
  destruct (fillFromTop_frames (called FnLightsFromTop s) Hclr)
    as (s1 & evs1 & E1 & Hl1 & _ & _ & Ht1 & _ & Hlen & Hfr).
  assert (Hrest : clearing (delay 40000 ;; fadeOut ;; FastLED_clear true)).
  { apply clearing_bind; [apply quiet_delay |].
    apply clearing_bind; [apply quiet_fadeOut | apply clearing_clear]. }
  destruct (Hrest s1 (proj1 Hl1)) as (s' & E2 & (_ & _ & _ & evs2 & Ht2 & _) & _).
  exists s', (evs1 ++ evs2).
  split.
  { unfold lightsFromTop. unfold bind at 1. unfold enter at 1.
    rewrite (bind_Some _ _ _ _ _ E1). exact E2. }
  split.
  { rewrite Ht2, Ht1. cbn [trace called]. symmetry. apply app_assoc. }
  intros L HL. destruct (Hfr L HL) as (f & Hf & Hlen' & Hlit & Hdark).
  exists f. split.
  { rewrite shown_app, lookup_app_l by (rewrite Hlen; lia). exact Hf. }
  split; [exact Hlen' |].
  split; [| exact Hdark].
  intros i Hi. split; [apply Hlit, Hi | apply gradient_not_black].
Qed.

Lemma lightsFromTop_growth_frames_witness :
  exists s' evs,
    lightsFromTop boot = Some (tt, s') /\
    trace s' = trace boot ++ evs /\
    forall L, 0 <= L < NUM_LEDS ->
      exists f,
        shown evs !! Z.to_nat L = Some f /\
        length f = Z.to_nat NUM_LEDS /\
        (forall i : nat, Z.of_nat i < L ->
           f !! i = Some (CHSV (Z.of_nat i * (255 / NUM_LEDS)) 255 60) /\
           CHSV (Z.of_nat i * (255 / NUM_LEDS)) 255 60 <> Black) /\
        (forall i : nat, L <= Z.of_nat i < NUM_LEDS -> f !! i = Some Black).
Proof.
  apply (lightsFromTop_growth_frames boot). reflexivity.
Defined.


(** ** Runs that depart from the documented behaviour *)

(** C3 (defect). [doPink(0)] from the cleared strip: no frame is
    presented before the 40 s hold, and the strip is cleared at exit,
    but in between the fall loop starts from [(uint8_t)(0 - 1) = 255]
    and presents 255 frames, at brightness 255 down to 1. *)
Theorem doPink_zero_falls_from_255 :
  trace_of (doPink 0 boot) =
    Some ([EvDelay 40000]
          ++ flat_map (fun k => [EvShow (pink (255 - Z.of_nat k)); EvDelay 20])
               (seq 0 255)
          ++ [EvShow cleared]) /\
  leds_of (doPink 0 boot) = Some cleared.
Proof. split; vm_compute; reflexivity. Qed.

(** C5 (defect). When the 40 s dwell begins the strip is not lit over
    its full length: after "fill from top" the last pixel (index 112)
    is still dark, and after "fill from bottom" the first two pixels
    (indices 0 and 1) are. *)
Theorem dwell_begins_short_of_full_length :
  dwell_of (lightsFromTop boot) =
    Some (map (fun i => gradient (Z.of_nat i)) (seq 0 112) ++ [Black]) /\
  dwell_of (lightsFromBottom boot) =
    Some ([Black; Black] ++ map (fun i => gradient (Z.of_nat i)) (seq 2 111)).
Proof. split; vm_compute; reflexivity. Qed.

(** The upper sensor of [late_upper 0] is low at entry and high from
    the first frame of "fill from bottom" on; the Night routine runs
    "fill from bottom" only. *)
Example late_upper_run :
  calls_of (doNightRoutine (late_upper 0) boot) =
    Some [FnNightRoutine; FnLightsFromBottom] /\
  match trace_of (doNightRoutine (late_upper 0) boot) with
  | Some tr => digitalIn (late_upper 0) PIN_UPPER_SENSOR tr
  | None => false
  end = true.
Proof. split; vm_compute; reflexivity. Qed.


(** ** Frames and timing of the animations *)

Lemma paced_ret : paced 0 0 (ret tt).
Proof.
  intros s Hs. exists s, []. repeat split; try assumption.
  symmetry; apply app_nil_r.
Qed.

Lemma paced_setLed i c : 0 <= i < NUM_LEDS -> paced 0 0 (setLed i c).
Proof.
  intros Hi s Hs. rewrite setLed_ok by (rewrite Hs; unfold NUM_LEDS in *; lia).
  eexists _, []. split; [reflexivity |].
  split; [red; cbn; rewrite length_insert; exact Hs |].
  repeat split. symmetry; apply app_nil_r.
Qed.

Lemma paced_show : paced 1 0 FastLED_show.
Proof.
  intros s Hs. exists (log (EvShow (leds s)) s), [EvShow (leds s)].
  repeat split. exact Hs.
Qed.

Lemma paced_delay ms : paced 0 ms (delay ms).
Proof.
  intros s Hs. exists (log (EvDelay ms) s), [EvDelay ms].
  repeat split; [exact Hs | cbn; lia].
Qed.

Lemma paced_bind n1 d1 n2 d2 (c1 c2 : M unit) :
  paced n1 d1 c1 -> paced n2 d2 c2 -> paced (n1 + n2) (d1 + d2) (c1 ;; c2).
Proof.
  intros H1 H2 s Hs.
  destruct (H1 s Hs) as (s1 & e1 & E1 & W1 & M1 & C1 & T1 & R1 & N1 & D1).
  destruct (H2 s1 W1) as (s2 & e2 & E2 & W2 & M2 & C2 & T2 & R2 & N2 & D2).
  exists s2, (e1 ++ e2).
  split; [rewrite (bind_Some _ _ _ _ _ E1); exact E2 |].
  split; [exact W2 |]. split; [congruence |]. split; [congruence |].
  split; [rewrite T2, T1; symmetry; apply app_assoc |].
  split; [rewrite reads_app, R1, R2; reflexivity |].
  split; [rewrite shown_app, length_app; congruence |].
  rewrite delayed_app. congruence.
Qed.

(** The loop rule with a count of iterations: [idx x] is the number of
    iterations done when the counter is [x]. *)
Lemma paced_for (J : Z -> Prop) (idx m : Z -> nat) (N n0 : nat) (d0 : Z)
    fuel cond step (body : Z -> unit -> M unit) x0 :
  (forall x, J x -> cond x = true ->
     paced n0 d0 (body x tt) /\ J (step x) /\
     idx (step x) = S (idx x) /\ (m (step x) < m x)%nat) ->
  (forall x, J x -> cond x = false -> idx x = N) ->
  J x0 -> idx x0 = O -> (m x0 < fuel)%nat ->
  paced (N * n0) (Z.of_nat N * d0) (for_loop fuel cond step body x0 tt).
Proof.
  intros Hbody Hexit Hj Hi0 Hm s Hs.
  destruct (for_loop_total
              (fun x (_ : unit) s1 =>
                 J x /\ wf s1 /\ mode s1 = mode s /\ calls s1 = calls s /\
                 exists evs,
                   trace s1 = trace s ++ evs /\ reads evs = [] /\
                   length (shown evs) = (idx x * n0)%nat /\
                   delayed evs = Z.of_nat (idx x) * d0)
              m cond step body)
    with (fuel := fuel) (x := x0) (a := tt) (s := s)
    as (x' & [] & s' & E & (Hx & W & Hmo & Hc & evs & Ht & Hr & Hn & Hd) & Ec).
  - intros x [] s1 (Hx & W1 & M1 & C1 & evs & T1 & R1 & N1 & D1) Ec.
    destruct (Hbody x Hx Ec) as (Hp & Hx' & Hidx & Hlt).
    destruct (Hp s1 W1) as (s2 & e2 & E2 & W2 & M2 & C2 & T2 & R2 & N2 & D2).
    exists tt, s2. split; [exact E2 |]. split; [| exact Hlt].
    split; [exact Hx' |]. split; [exact W2 |].
    split; [congruence |]. split; [congruence |].
    exists (evs ++ e2).
    split; [rewrite T2, T1; symmetry; apply app_assoc |].
    split; [rewrite reads_app, R1, R2; reflexivity |].
    split; [rewrite shown_app, length_app, N1, N2, Hidx; lia |].
    rewrite delayed_app, D1, D2, Hidx. lia.
  - split; [exact Hj |]. split; [exact Hs |].
    split; [reflexivity |]. split; [reflexivity |].
    exists []. rewrite Hi0. repeat split. symmetry; apply app_nil_r.
  - exact Hm.
  - rewrite (Hexit x' Hx Ec) in Hn, Hd.
    exists s', evs. auto 10.
Qed.

Lemma paced_conv n d n' d' (c : M unit) :
  n = n' -> d = d' -> paced n d c -> paced n' d' c.
Proof. intros -> ->. exact (fun H => H). Qed.

Lemma paced_paint hi (colour : Z -> Pixel) :
  0 <= hi <= NUM_LEDS ->
  paced 0 0 (for_loop FUEL_U8 (fun led => led <? hi) (fun led => u8 (led + 1))
               (fun led _ => setLed led (colour led)) 0 tt).
Proof.
  intros Hhi. unfold NUM_LEDS in Hhi.
  apply paced_conv with (n := (Z.to_nat hi * 0)%nat)
                        (d := Z.of_nat (Z.to_nat hi) * 0); [lia | lia |].
  apply paced_for with (J := fun led => 0 <= led <= hi)
                       (idx := fun led => Z.to_nat led)
                       (m := fun led => Z.to_nat (hi - led)).
  - intros led Hl Ec. apply Z.ltb_lt in Ec. rewrite (u8_small (led + 1)) by lia.
    split; [apply paced_setLed; unfold NUM_LEDS; lia |].
    split; [lia |]. split; lia.
  - intros led Hl Ec. apply Z.ltb_ge in Ec. f_equal. lia.
  - lia.
  - reflexivity.
  - unfold FUEL_U8. lia.
Qed.


Lemma paced_paint_down lo (colour : Z -> Pixel) :
  0 <= lo < NUM_LEDS ->
  paced 0 0 (for_loop FUEL_U8 (fun led => led >? lo) (fun led => u8 (led - 1))
               (fun led _ => setLed led (colour led)) (u8 (NUM_LEDS - 1)) tt).
Proof.
  intros Hlo. unfold NUM_LEDS in Hlo.
  apply paced_conv with (n := (Z.to_nat (112 - lo) * 0)%nat)
                        (d := Z.of_nat (Z.to_nat (112 - lo)) * 0); [lia | lia |].
  apply paced_for with (J := fun led => lo <= led <= 112)
                       (idx := fun led => Z.to_nat (112 - led))
                       (m := fun led => Z.to_nat led).
  - intros led Hl Ec. apply Z.gtb_lt in Ec. rewrite (u8_small (led - 1)) by lia.
    split; [apply paced_setLed; unfold NUM_LEDS; lia |].
    split; [lia |]. split; lia.
  - intros led Hl Ec. rewrite Z.gtb_ltb in Ec. apply Z.ltb_ge in Ec. f_equal. lia.
  - rewrite u8_small; unfold NUM_LEDS; lia.
  - rewrite u8_small; unfold NUM_LEDS; [reflexivity | lia].
  - rewrite u8_small; unfold FUEL_U8, NUM_LEDS; lia.
Qed.

Lemma paced_fadeOut : paced 60 1200 fadeOut.
Proof.
  unfold fadeOut.
  apply paced_conv with (n := (60 * (0 + (1 + 0)))%nat)
                        (d := Z.of_nat 60 * (0 + (0 + 20))); [reflexivity .. |].
  apply paced_for with (J := fun b => 0 <= b <= 60)
                       (idx := fun b => Z.to_nat (60 - b))
                       (m := fun b => Z.to_nat b).
  - intros b Hb Ec. apply Z.gtb_lt in Ec. rewrite (u8_small (b - 1)) by lia.
    split; [| split; [lia | split; lia]].
    apply paced_bind; [| apply paced_bind; [apply paced_show | apply paced_delay]].
    apply paced_paint with (colour := fun led => CHSV (u8 (led * hueFactor)) 255 b).
    unfold NUM_LEDS. lia.
  - intros b Hb Ec. rewrite Z.gtb_ltb in Ec. apply Z.ltb_ge in Ec.
    assert (b = 0) as -> by lia. reflexivity.
  - lia.
  - reflexivity.
  - unfold FUEL_U8. lia.
Qed.

Lemma paced_fillFromTop : paced 113 1130 fillFromTop.
Proof.
  unfold fillFromTop.
  apply paced_conv with (n := (113 * (0 + (1 + 0)))%nat)
                        (d := Z.of_nat 113 * (0 + (0 + 10))); [reflexivity .. |].
  apply paced_for with (J := fun k => 0 <= k <= 113)
                       (idx := fun k => Z.to_nat k)
                       (m := fun k => Z.to_nat (113 - k)).
  - intros k Hk Ec. apply Z.ltb_lt in Ec. unfold NUM_LEDS in Ec.
    rewrite (u8_small (k + 1)) by lia.
    split; [| split; [lia | split; lia]].
    apply paced_bind; [| apply paced_bind; [apply paced_show | apply paced_delay]].
    apply paced_paint with (colour := fun led => CHSV (u8 (led * hueFactor)) 255 60).
    unfold NUM_LEDS. lia.
  - intros k Hk Ec. apply Z.ltb_ge in Ec. unfold NUM_LEDS in Ec.
    assert (k = 113) as -> by lia. reflexivity.
  - lia.
  - reflexivity.
  - unfold FUEL_U8. lia.
Qed.

Lemma paced_fillFromBottom : paced 112 1120 fillFromBottom.
Proof.
  unfold fillFromBottom.
  apply paced_conv with (n := (112 * (0 + (1 + 0)))%nat)
                        (d := Z.of_nat 112 * (0 + (0 + 10))); [reflexivity .. |].
  apply paced_for with (J := fun k => 0 <= k <= 112)
                       (idx := fun k => Z.to_nat (112 - k))
                       (m := fun k => Z.to_nat k).
  - intros k Hk Ec. apply Z.gtb_lt in Ec.
    rewrite (u8_small (k - 1)) by lia.
    split; [| split; [lia | split; lia]].
    apply paced_bind; [| apply paced_bind; [apply paced_show | apply paced_delay]].
    apply paced_paint_down
      with (colour := fun led => CHSV (u8 (led * hueFactor)) 255 60).
    unfold NUM_LEDS. lia.
  - intros k Hk Ec. rewrite Z.gtb_ltb in Ec. apply Z.ltb_ge in Ec.
    assert (k = 0) as -> by lia. reflexivity.
  - rewrite u8_small; unfold NUM_LEDS; lia.
  - rewrite u8_small; unfold NUM_LEDS; [reflexivity | lia].
  - rewrite u8_small; unfold FUEL_U8, NUM_LEDS; lia.
Qed.

Lemma paced_clearing_clear : paced_clearing 1 0 (FastLED_clear true).
Proof.
  intros s Hs.
  destruct (clear_spec s Hs) as (s' & E & (W & Hm & Hc & _) & L & T).
  exists s', [EvShow cleared]. repeat split; assumption.
Qed.

Lemma paced_clearing_bind n1 d1 n2 d2 (c1 c2 : M unit) :
  paced n1 d1 c1 -> paced_clearing n2 d2 c2 ->
  paced_clearing (n1 + n2) (d1 + d2) (c1 ;; c2).
Proof.
  intros H1 H2 s Hs.
  destruct (H1 s Hs) as (s1 & e1 & E1 & W1 & M1 & C1 & T1 & R1 & N1 & D1).
  destruct (H2 s1 W1) as (s2 & e2 & E2 & W2 & M2 & C2 & T2 & R2 & N2 & D2 & L2).
  exists s2, (e1 ++ e2).
  split; [rewrite (bind_Some _ _ _ _ _ E1); exact E2 |].
  split; [exact W2 |]. split; [congruence |]. split; [congruence |].
  split; [rewrite T2, T1; symmetry; apply app_assoc |].
  split; [rewrite reads_app, R1, R2; reflexivity |].
  split; [rewrite shown_app, length_app; congruence |].
  split; [rewrite delayed_app; congruence | exact L2].
Qed.

Lemma performs_ret : performs [] 0 0 (ret tt).
Proof.
  intros s Hs. exists s, []. repeat split; try assumption.
  all: symmetry; apply app_nil_r.
Qed.

Lemma performs_delay ms : performs [] 0 ms (delay ms).
Proof.
  intros s Hs. exists (log (EvDelay ms) s), [EvDelay ms].
  repeat split; try assumption; cbn; try lia.
  symmetry; apply app_nil_r.
Qed.

Lemma performs_bind a b n1 d1 n2 d2 (c1 c2 : M unit) :
  performs a n1 d1 c1 -> performs b n2 d2 c2 ->
  performs (a ++ b) (n1 + n2) (d1 + d2) (c1 ;; c2).
Proof.
  intros H1 H2 s Hs.
  destruct (H1 s Hs) as (s1 & e1 & E1 & W1 & M1 & C1 & T1 & R1 & N1 & D1 & L1).
  destruct (H2 s1 W1) as (s2 & e2 & E2 & W2 & M2 & C2 & T2 & R2 & N2 & D2 & L2).
  exists s2, (e1 ++ e2).
  split; [rewrite (bind_Some _ _ _ _ _ E1); exact E2 |].
  split; [exact W2 |]. split; [congruence |].
  split; [rewrite C2, C1; symmetry; apply app_assoc |].
  split; [rewrite T2, T1; symmetry; apply app_assoc |].
  split; [rewrite reads_app, R1, R2; reflexivity |].
  split; [rewrite shown_app, length_app; congruence |].
  split; [rewrite delayed_app; congruence |].
  rewrite L2. destruct n2 as [| n2].
  - rewrite L1, Nat.add_0_r. reflexivity.
  - rewrite <- plus_n_Sm. reflexivity.
Qed.

Lemma performs_when (b : bool) cs n d (c : M unit) :
  performs cs n d c ->
  performs (if b then cs else []) (if b then n else 0%nat) (if b then d else 0)
    (when b c).
Proof. intros H. destruct b; [exact H | apply performs_ret]. Qed.

Lemma performs_animation r n d (c : M unit) :
  paced_clearing (S n) d c -> performs [r] (S n) d (enter r ;; c).
Proof.
  intros H s Hs.
  destruct (H (called r s) Hs)
    as (s' & evs & E & W & Hm & Hc & Ht & Hr & Hn & Hd & L).
  exists s', evs. repeat split; assumption.
Qed.

Lemma performs_lightsFromTop :
  performs [FnLightsFromTop] 174 42330 lightsFromTop.
Proof.
  apply (performs_animation FnLightsFromTop 173 42330).
  apply (paced_clearing_bind 113 1130 61 41200); [apply paced_fillFromTop |].
  apply (paced_clearing_bind 0 40000 61 1200); [apply paced_delay |].
  apply (paced_clearing_bind 60 1200 1 0);
    [apply paced_fadeOut | apply paced_clearing_clear].
Qed.

Lemma performs_lightsFromBottom :
  performs [FnLightsFromBottom] 173 42320 lightsFromBottom.
Proof.
  apply (performs_animation FnLightsFromBottom 172 42320).
  apply (paced_clearing_bind 112 1120 61 41200); [apply paced_fillFromBottom |].
  apply (paced_clearing_bind 0 40000 61 1200); [apply paced_delay |].
  apply (paced_clearing_bind 60 1200 1 0);
    [apply paced_fadeOut | apply paced_clearing_clear].
Qed.

(** X1. Whatever the buffer holds at entry, "fill from top" returns
    after presenting 174 frames and 42330 ms of delay, and "fill from
    bottom" after 173 frames and 42320 ms; neither reads a sensor or
    changes the mode, and both leave the buffer cleared. *)
Theorem fill_animations_pacing (s : State) :
  wf s ->
  (exists s' evs,
     lightsFromTop s = Some (tt, s') /\ leds s' = cleared /\
     mode s' = mode s /\ trace s' = trace s ++ evs /\ reads evs = [] /\
     length (shown evs) = 174%nat /\ delayed evs = 42330) /\
  (exists s' evs,
     lightsFromBottom s = Some (tt, s') /\ leds s' = cleared /\
     mode s' = mode s /\ trace s' = trace s ++ evs /\ reads evs = [] /\
     length (shown evs) = 173%nat /\ delayed evs = 42320).
Proof.
  intros Hs. split.
  - destruct (performs_lightsFromTop s Hs)
      as (s' & evs & E & _ & Hm & _ & Ht & Hr & Hn & Hd & L).
    exists s', evs. auto 10.
  - destruct (performs_lightsFromBottom s Hs)
      as (s' & evs & E & _ & Hm & _ & Ht & Hr & Hn & Hd & L).
    exists s', evs. auto 10.
Qed.

Lemma fill_animations_pacing_witness :
  (exists s' evs,
     lightsFromTop boot = Some (tt, s') /\ leds s' = cleared /\
     mode s' = NIGHT /\ trace s' = evs /\ reads evs = [] /\
     length (shown evs) = 174%nat /\ delayed evs = 42330) /\
  (exists s' evs,
     lightsFromBottom boot = Some (tt, s') /\ leds s' = cleared /\
     mode s' = NIGHT /\ trace s' = evs /\ reads evs = [] /\
     length (shown evs) = 173%nat /\ delayed evs = 42320).
Proof.
  apply (fill_animations_pacing boot). reflexivity.
Defined.

(** ** Exact frames *)

Lemma lookup_map_seq {A} (f : nat -> A) a n i :
  (i < n)%nat -> map f (seq a n) !! i = Some (f (a + i)%nat).
Proof.
  revert a i. induction n as [| n IH]; intros a i Hi; [lia |].
  destruct i as [| i]; cbn.
  - rewrite Nat.add_0_r. reflexivity.
  - rewrite IH by lia. f_equal. f_equal. lia.
Qed.

Lemma list_of_lookups {A} (f : nat -> A) (l : list A) n :
  length l = n ->
  (forall i, (i < n)%nat -> l !! i = Some (f i)) ->
  l = map f (seq 0 n).
Proof.
  intros Hlen Hl. apply (list_eq_same_length _ _ n).
  - rewrite length_map, length_seq. reflexivity.
  - exact Hlen.
  - intros i x y Hi Hx Hy. rewrite Hl in Hx by exact Hi.
    rewrite lookup_map_seq in Hy by exact Hi. cbn [Nat.add] in Hy. congruence.
Qed.

(** [for (led = 0; led < NUM_LEDS; ++led) leds[led] = colour led]
    overwrites the whole buffer. *)
Lemma paint_all fuel step (colour : Z -> Pixel) s :
  wf s ->
  (forall x, 0 <= x < NUM_LEDS -> step x = x + 1) ->
  (Z.to_nat NUM_LEDS < fuel)%nat ->
  exists s',
    for_loop fuel (fun led => led <? NUM_LEDS) step
      (fun led _ => setLed led (colour led)) 0 tt s = Some (tt, s') /\
    leds s' = map (fun i => colour (Z.of_nat i)) (seq 0 (Z.to_nat NUM_LEDS)) /\
    mode s' = mode s /\ calls s' = calls s /\ trace s' = trace s.
Proof.
  intros Hs Hstep Hfuel.
  destruct (for_loop_total
              (fun j (_ : unit) s1 =>
                 0 <= j <= NUM_LEDS /\ wf s1 /\
                 (forall i : nat, Z.of_nat i < j ->
                    leds s1 !! i = Some (colour (Z.of_nat i))) /\
                 mode s1 = mode s /\ calls s1 = calls s /\ trace s1 = trace s)
              (fun j => Z.to_nat (NUM_LEDS - j))
              (fun led => led <? NUM_LEDS) step
              (fun led _ => setLed led (colour led)))
    with (fuel := fuel) (x := 0) (a := tt) (s := s)
    as (j & [] & s' & E & (Hj & W & Hl & Hm & Hc & Ht) & Ec).
  - intros j [] s1 (Hj & W1 & Hl & Hm & Hc & Ht) Ec. apply Z.ltb_lt in Ec.
    rewrite setLed_ok by (rewrite W1; unfold NUM_LEDS in *; lia).
    eexists tt, _. split; [reflexivity |].
    rewrite Hstep by lia.
    split; [| unfold NUM_LEDS in *; lia].
    split; [lia |].
    split; [red; cbn; rewrite length_insert; exact W1 |].
    split; [| cbn; auto].
    intros i Hi. cbn [leds with_leds].
    destruct (decide (Z.to_nat j = i)) as [<- | Hne].
    + rewrite list_lookup_insert_eq by (rewrite W1; unfold NUM_LEDS in *; lia).
      rewrite Z2Nat.id by lia. reflexivity.
    + rewrite list_lookup_insert_ne by exact Hne. apply Hl. lia.
  - split; [unfold NUM_LEDS; lia |]. split; [exact Hs |].
    split; [intros i Hi; lia | auto].
  - exact Hfuel.
  - apply Z.ltb_ge in Ec. exists s'. split; [exact E |].
    split; [| auto].
    apply list_of_lookups; [exact W |].
    intros i Hi. apply Hl. unfold NUM_LEDS in *. lia.
Qed.

Lemma plays_ret : plays [] (ret tt).
Proof.
  intros s Hs. exists s. repeat split; try assumption.
  symmetry; apply app_nil_r.
Qed.

Lemma plays_delay ms : plays [EvDelay ms] (delay ms).
Proof. intros s Hs. exists (log (EvDelay ms) s). repeat split. exact Hs. Qed.

Lemma plays_bind e1 e2 (c1 c2 : M unit) :
  plays e1 c1 -> plays e2 c2 -> plays (e1 ++ e2) (c1 ;; c2).
Proof.
  intros H1 H2 s Hs.
  destruct (H1 s Hs) as (s1 & E1 & W1 & M1 & C1 & T1).
  destruct (H2 s1 W1) as (s2 & E2 & W2 & M2 & C2 & T2).
  exists s2.
  split; [rewrite (bind_Some _ _ _ _ _ E1); exact E2 |].
  split; [exact W2 |]. split; [congruence |]. split; [congruence |].
  rewrite T2, T1. symmetry. apply app_assoc.
Qed.

(** The loop rule for exact traces: [ctr k] is the counter at
    iteration [k]. *)
Lemma plays_for (J : Z -> Prop) (idx m : Z -> nat) (ctr : nat -> Z) (N : nat)
    (ev : Z -> list Event) fuel cond step (body : Z -> unit -> M unit) x0 :
  (forall x, J x -> cond x = true ->
     plays (ev x) (body x tt) /\ J (step x) /\
     idx (step x) = S (idx x) /\ (m (step x) < m x)%nat) ->
  (forall x, J x -> ctr (idx x) = x) ->
  (forall x, J x -> cond x = false -> idx x = N) ->
  J x0 -> idx x0 = O -> (m x0 < fuel)%nat ->
  plays (flat_map (fun k => ev (ctr k)) (seq 0 N))
    (for_loop fuel cond step body x0 tt).
Proof.
  intros Hbody Hctr Hexit Hj Hi0 Hm s Hs.
  destruct (for_loop_total
              (fun x (_ : unit) s1 =>
                 J x /\ wf s1 /\ mode s1 = mode s /\ calls s1 = calls s /\
                 trace s1 =
                   trace s ++ flat_map (fun k => ev (ctr k)) (seq 0 (idx x)))
              m cond step body)
    with (fuel := fuel) (x := x0) (a := tt) (s := s)
    as (x' & [] & s' & E & (Hx & W & Hmo & Hc & Ht) & Ec).
  - intros x [] s1 (Hx & W1 & M1 & C1 & T1) Ec.
    destruct (Hbody x Hx Ec) as (Hp & Hx' & Hidx & Hlt).
    destruct (Hp s1 W1) as (s2 & E2 & W2 & M2 & C2 & T2).
    exists tt, s2. split; [exact E2 |]. split; [| exact Hlt].
    split; [exact Hx' |]. split; [exact W2 |].
    split; [congruence |]. split; [congruence |].
    rewrite T2, T1, Hidx, seq_S, flat_map_app. cbn [flat_map Nat.add].
    rewrite (Hctr x Hx), app_nil_r. symmetry. apply app_assoc.
  - split; [exact Hj |]. split; [exact Hs |].
    split; [reflexivity |]. split; [reflexivity |].
    rewrite Hi0. symmetry. apply app_nil_r.
  - exact Hm.
  - rewrite (Hexit x' Hx Ec) in Ht. exists s'. auto.
Qed.

Lemma plays_conv e e' (c : M unit) : e = e' -> plays e c -> plays e' c.
Proof. intros ->. exact (fun H => H). Qed.

(** Painting the whole buffer and presenting it. *)
Lemma plays_paint_show fuel step (colour : Z -> Pixel) ms :
  (forall x, 0 <= x < NUM_LEDS -> step x = x + 1) ->
  (Z.to_nat NUM_LEDS < fuel)%nat ->
  plays [EvShow (map (fun i => colour (Z.of_nat i))
                   (seq 0 (Z.to_nat NUM_LEDS)));
         EvDelay ms]
    (for_loop fuel (fun led => led <? NUM_LEDS) step
       (fun led _ => setLed led (colour led)) 0 tt ;;
     FastLED_show ;;
     delay ms).
Proof.
  intros Hstep Hfuel s Hs.
  destruct (paint_all fuel step colour s Hs Hstep Hfuel)
    as (s1 & E1 & L1 & M1 & C1 & T1).
  exists (log (EvDelay ms) (log (EvShow (leds s1)) s1)).
  split; [rewrite (bind_Some _ _ _ _ _ E1); reflexivity |].
  split; [red; cbn [leds log]; rewrite L1, length_map, length_seq; reflexivity |].
  split; [exact M1 |]. split; [exact C1 |].
  cbn [trace log]. rewrite T1, L1, <- app_assoc. reflexivity.
Qed.

Lemma u8_step_up x : 0 <= x < NUM_LEDS -> u8 (x + 1) = x + 1.
Proof. intros H. apply u8_small. unfold NUM_LEDS in H. lia. Qed.

Lemma plays_pinkFrame level :
  plays [EvShow (pink level); EvDelay 20] (pinkFrame level).
Proof.
  unfold pinkFrame.
  apply (plays_paint_show FUEL_U8 (fun led => u8 (led + 1))
           (fun _ => CHSV 200 255 level) 20).
  - exact u8_step_up.
  - unfold FUEL_U8, NUM_LEDS. lia.
Qed.

Lemma plays_fadeFrame brightness :
  plays [EvShow (gradient_frame brightness); EvDelay 20]
    (for_loop FUEL_U8 (fun led => led <? NUM_LEDS) (fun led => u8 (led + 1))
       (fun led _ =>
          let color := u8 (led * hueFactor) in
          setLed led (CHSV color 255 brightness))
       0 tt ;;
     FastLED_show ;;
     delay 20).
Proof.
  apply (plays_paint_show FUEL_U8 (fun led => u8 (led + 1))
           (fun led => CHSV (u8 (led * hueFactor)) 255 brightness) 20).
  - exact u8_step_up.
  - unfold FUEL_U8, NUM_LEDS. lia.
Qed.

(** The events of a run of frames, each followed by the same delay. *)
Lemma frames_counts (f : nat -> Frame) ms (l : list nat) :
  reads (flat_map (fun k => [EvShow (f k); EvDelay ms]) l) = [] /\
  length (shown (flat_map (fun k => [EvShow (f k); EvDelay ms]) l)) = length l /\
  delayed (flat_map (fun k => [EvShow (f k); EvDelay ms]) l) =
    Z.of_nat (length l) * ms.
Proof.
  induction l as [| k l (IHr & IHn & IHd)]; [repeat split |].
  cbn [flat_map]. rewrite reads_app, shown_app, delayed_app, length_app.
  rewrite IHr, IHn, IHd. cbn [length].
  split; [reflexivity |]. split; [reflexivity |].
  cbn [delayed fold_right]. lia.
Qed.

Lemma plays_fadeOut :
  plays (flat_map (fun k => [EvShow (gradient_frame (60 - Z.of_nat k));
                             EvDelay 20]) (seq 0 60))
    fadeOut.
Proof.
  unfold fadeOut.
  apply (plays_for (fun b => 0 <= b <= 60) (fun b => Z.to_nat (60 - b))
           (fun b => Z.to_nat b) (fun k => 60 - Z.of_nat k) 60
           (fun b => [EvShow (gradient_frame b); EvDelay 20])).
  - intros b Hb Ec. apply Z.gtb_lt in Ec. rewrite (u8_small (b - 1)) by lia.
    split; [apply plays_fadeFrame |]. split; [lia |]. split; lia.
  - intros b Hb. lia.
  - intros b Hb Ec. rewrite Z.gtb_ltb in Ec. apply Z.ltb_ge in Ec.
    assert (b = 0) as -> by lia. reflexivity.
  - lia.
  - reflexivity.
  - unfold FUEL_U8. lia.
Qed.

Lemma plays_clear : plays [EvShow cleared] (FastLED_clear true).
Proof.
  intros s Hs.
  destruct (clear_spec s Hs) as (s' & E & (W & Hm & Hc & _) & _ & T).
  exists s'. auto.
Qed.

(** X2. In both fill animations, whatever the buffer held and however
    far the growth phase got, the 40 s dwell is followed by exactly 60
    frames that light all [NUM_LEDS] pixels at their gradient hue, at
    brightness 60 down to 1 and 20 ms apart, and then by the cleared
    frame. *)
Theorem fill_animations_fade_out (s : State) :
  wf s ->
  (exists s' growth,
     lightsFromTop s = Some (tt, s') /\
     length (shown growth) = 113%nat /\
     trace s' =
       trace s ++ growth ++ [EvDelay 40000]
       ++ flat_map (fun k => [EvShow (gradient_frame (60 - Z.of_nat k));
                              EvDelay 20]) (seq 0 60)
       ++ [EvShow cleared]) /\
  (exists s' growth,
     lightsFromBottom s = Some (tt, s') /\
     length (shown growth) = 112%nat /\
     trace s' =
       trace s ++ growth ++ [EvDelay 40000]
       ++ flat_map (fun k => [EvShow (gradient_frame (60 - Z.of_nat k));
                              EvDelay 20]) (seq 0 60)
       ++ [EvShow cleared]).
Proof.
  intros Hs.
  pose proof (plays_bind _ _ _ _ (plays_delay 40000)
                (plays_bind _ _ _ _ plays_fadeOut plays_clear)) as Hrest.
  split.
  - destruct (paced_fillFromTop (called FnLightsFromTop s) Hs)
      as (s1 & growth & E1 & W1 & _ & _ & T1 & _ & N1 & _).
    destruct (Hrest s1 W1) as (s' & E2 & _ & _ & _ & T2).
    exists s', growth. split; [| split; [exact N1 |]].
    + unfold lightsFromTop. unfold bind at 1. unfold enter at 1.
      rewrite (bind_Some _ _ _ _ _ E1). exact E2.
    + rewrite T2, T1. cbn [trace called]. rewrite <- !app_assoc. reflexivity.
  - destruct (paced_fillFromBottom (called FnLightsFromBottom s) Hs)
      as (s1 & growth & E1 & W1 & _ & _ & T1 & _ & N1 & _).
    destruct (Hrest s1 W1) as (s' & E2 & _ & _ & _ & T2).
    exists s', growth. split; [| split; [exact N1 |]].
    + unfold lightsFromBottom. unfold bind at 1. unfold enter at 1.
      rewrite (bind_Some _ _ _ _ _ E1). exact E2.
    + rewrite T2, T1. cbn [trace called]. rewrite <- !app_assoc. reflexivity.
Qed.

Lemma fill_animations_fade_out_witness :
  (exists s' growth,
     lightsFromTop boot = Some (tt, s') /\
     length (shown growth) = 113%nat /\
     trace s' =
       growth ++ [EvDelay 40000]
       ++ flat_map (fun k => [EvShow (gradient_frame (60 - Z.of_nat k));
                              EvDelay 20]) (seq 0 60)
       ++ [EvShow cleared]) /\
  (exists s' growth,
     lightsFromBottom boot = Some (tt, s') /\
     length (shown growth) = 112%nat /\
     trace s' =
       growth ++ [EvDelay 40000]
       ++ flat_map (fun k => [EvShow (gradient_frame (60 - Z.of_nat k));
                              EvDelay 20]) (seq 0 60)
       ++ [EvShow cleared]).
Proof.
  apply (fill_animations_fade_out boot). reflexivity.
Defined.

Lemma plays_doPink_body brightness :
  0 <= brightness < 256 ->
  plays (flat_map (fun k => [EvShow (pink (Z.of_nat k)); EvDelay 20])
           (seq 0 (Z.to_nat brightness))
         ++ [EvDelay 40000]
         ++ flat_map (fun k => [EvShow (pink (u8 (brightness - 1) - Z.of_nat k));
                                EvDelay 20])
              (seq 0 (Z.to_nat (u8 (brightness - 1))))
         ++ [EvShow cleared])
    (for_loop FUEL_U8 (fun level => level <? brightness)
       (fun level => u8 (level + 1))
       (fun level _ => pinkFrame level)
       0 tt ;;
     delay 40000 ;;
     for_loop FUEL_U8 (fun level => level >? 0)
       (fun level => u8 (level - 1))
       (fun level _ => pinkFrame level)
       (u8 (brightness - 1)) tt ;;
     FastLED_clear true).
Proof.
  intros Hb.
  assert (Ht : 0 <= u8 (brightness - 1) < 256)
    by (unfold u8; apply Z.mod_pos_bound; lia).
  apply plays_bind.
  { apply (plays_for (fun l => 0 <= l <= brightness) (fun l => Z.to_nat l)
             (fun l => Z.to_nat (brightness - l)) (fun k => Z.of_nat k)
             (Z.to_nat brightness)
             (fun l => [EvShow (pink l); EvDelay 20])).
    - intros l Hl Ec. apply Z.ltb_lt in Ec. rewrite (u8_small (l + 1)) by lia.
      split; [apply plays_pinkFrame |]. split; [lia |]. split; lia.
    - intros l Hl. lia.
    - intros l Hl Ec. apply Z.ltb_ge in Ec. f_equal. lia.
    - lia.
    - reflexivity.
    - unfold FUEL_U8. lia. }
  apply plays_bind; [apply plays_delay |].
  apply plays_bind; [| apply plays_clear].
  apply (plays_for (fun l => 0 <= l <= u8 (brightness - 1))
           (fun l => Z.to_nat (u8 (brightness - 1) - l))
           (fun l => Z.to_nat l)
           (fun k => u8 (brightness - 1) - Z.of_nat k)
           (Z.to_nat (u8 (brightness - 1)))
           (fun l => [EvShow (pink l); EvDelay 20])).
  - intros l Hl Ec. apply Z.gtb_lt in Ec. rewrite (u8_small (l - 1)) by lia.
    split; [apply plays_pinkFrame |]. split; [lia |]. split; lia.
  - intros l Hl. lia.
  - intros l Hl Ec. rewrite Z.gtb_ltb in Ec. apply Z.ltb_ge in Ec. f_equal. lia.
  - lia.
  - f_equal. lia.
  - unfold FUEL_U8. lia.
Qed.

(** X3. [doPink(b)] for every [uint8_t] argument [b], from any buffer:
    it presents [b] uniform pink frames at levels 0, 1, ..., [b - 1]
    (the first one dark, level [b] itself never shown), holds for 40 s,
    presents the levels from [(uint8_t)(b - 1)] down to 1, and ends with
    the cleared frame, every frame followed by 20 ms; nothing else is
    presented, and the buffer is left cleared. *)
Theorem doPink_trace (brightness : Z) (s : State) :
  0 <= brightness < 256 ->
  wf s ->
  exists s',
    doPink brightness s = Some (tt, s') /\
    leds s' = cleared /\
    mode s' = mode s /\
    trace s' =
      trace s
      ++ flat_map (fun k => [EvShow (pink (Z.of_nat k)); EvDelay 20])
           (seq 0 (Z.to_nat brightness))
      ++ [EvDelay 40000]
      ++ flat_map (fun k => [EvShow (pink (u8 (brightness - 1) - Z.of_nat k));
                             EvDelay 20])
           (seq 0 (Z.to_nat (u8 (brightness - 1))))
      ++ [EvShow cleared] /\
    delayed (new_events s s') =
      20 * brightness + 40000 + 20 * u8 (brightness - 1).
Proof.
  intros Hb Hs.
  assert (Ht : 0 <= u8 (brightness - 1) < 256)
    by (unfold u8; apply Z.mod_pos_bound; lia).
  destruct (plays_doPink_body brightness Hb (called (FnPink brightness) s) Hs)
    as (s' & E & W & Hm & _ & T).
  destruct (doPink_animation brightness Hb s Hs)
    as (s2 & evs & E2 & _ & L2 & _).
  assert (E' : doPink brightness s = Some (tt, s')) by exact E.
  rewrite E' in E2. injection E2 as <-.
  exists s'. split; [exact E' |]. split; [exact L2 |].
  split; [exact Hm |]. cbn [trace called] in T. split; [exact T |].
  rewrite (new_events_app _ _ _ T).
  rewrite !delayed_app.
  rewrite (proj2 (proj2 (frames_counts (fun k => pink (Z.of_nat k)) 20 _))).
  rewrite (proj2 (proj2 (frames_counts
             (fun k => pink (u8 (brightness - 1) - Z.of_nat k)) 20 _))).
  rewrite !length_seq. cbn [delayed fold_right]. lia.
Qed.

Lemma doPink_trace_witness :
  exists s',
    doPink 80 boot = Some (tt, s') /\
    leds s' = cleared /\
    mode s' = NIGHT /\
    trace s' =
      flat_map (fun k => [EvShow (pink (Z.of_nat k)); EvDelay 20]) (seq 0 80)
      ++ [EvDelay 40000]
      ++ flat_map (fun k => [EvShow (pink (79 - Z.of_nat k)); EvDelay 20])
           (seq 0 79)
      ++ [EvShow cleared] /\
    delayed (new_events boot s') = 43180.
Proof.
  apply (doPink_trace 80 boot); [lia | reflexivity].
Defined.

Lemma rainbow_offset_step c :
  0 <= c ->
  (if c mod 256 + 1 >? 255 then 0 else c mod 256 + 1) = (c + 1) mod 256.
Proof.
  intros Hc.
  pose proof (Z.mod_pos_bound c 256 eq_refl) as Hb.
  destruct (Z.gtb_spec (c mod 256 + 1) 255) as [Hgt | Hle].
  - rewrite <- Zplus_mod_idemp_l.
    replace (c mod 256) with 255 by lia. reflexivity.
  - rewrite <- Zplus_mod_idemp_l. rewrite (Z.mod_small (c mod 256 + 1)) by lia. reflexivity.
Qed.

Lemma rainbow_colours brightness offset :
  map (fun i =>
         CHSV (u8 ((Z.of_nat i * hueFactor + offset) mod 256)) 255 brightness)
      (seq 0 (Z.to_nat NUM_LEDS))
  = rainbow_frame brightness offset.
Proof.
  unfold rainbow_frame. apply map_ext. intros i.
  unfold u8. rewrite Z.mod_mod by lia. reflexivity.
Qed.

(** The run of [doRainbow], frame by frame. *)
Lemma doRainbow_run (brightness : Z) (s : State) :
  wf s ->
  exists s',
    doRainbow brightness s = Some (tt, s') /\
    leds s' = cleared /\
    mode s' = mode s /\
    calls s' = calls s ++ [FnRainbow brightness] /\
    trace s' =
      trace s
      ++ flat_map (fun k => [EvShow (rainbow_frame brightness
                                       (Z.of_nat k mod 256));
                             EvDelay 50]) (seq 0 2000)
      ++ [EvShow cleared] /\
    delayed (new_events s s') = 100000.
Proof.
  intros Hs. unfold doRainbow.
  set (F := fun k : nat =>
              [EvShow (rainbow_frame brightness (Z.of_nat k mod 256));
               EvDelay 50]).
  set (s0 := called (FnRainbow brightness) s).
  destruct (for_loop_total
              (fun c a s1 =>
                 0 <= c <= 2000 /\ a = c mod 256 /\ wf s1 /\
                 mode s1 = mode s0 /\ calls s1 = calls s0 /\
                 trace s1 = trace s0 ++ flat_map F (seq 0 (Z.to_nat c)))
              (fun c => Z.to_nat (2000 - c))
              (fun counter => counter <? 2000)
              (fun counter => counter + 1)
              (fun (_ : Z) offset =>
                 for_loop (S (Z.to_nat NUM_LEDS)) (fun led => led <? NUM_LEDS)
                   (fun led => led + 1)
                   (fun led _ =>
                      let color := u8 ((led * hueFactor + offset) mod 256) in
                      setLed led (CHSV color 255 brightness))
                   0 tt ;;
                 FastLED_show ;;
                 delay 50 ;;
                 let offset := offset + 1 in
                 ret (if offset >? 255 then 0 else offset)))
    with (fuel := 2001%nat) (x := 0) (a := 0) (s := s0)
    as (c & a & s1 & E & (Hc & Ha & W & Hm & Hcs & Ht) & Ec).
  - intros c a s1 (Hc & Ha & W1 & M1 & C1 & T1) Ec. apply Z.ltb_lt in Ec.
    destruct (paint_all (S (Z.to_nat NUM_LEDS)) (fun led => led + 1)
                (fun led =>
                   CHSV (u8 ((led * hueFactor + a) mod 256)) 255 brightness)
                s1 W1) as (s2 & E2 & L2 & M2 & C2 & T2);
      [reflexivity | lia |].
    rewrite rainbow_colours in L2.
    exists (if a + 1 >? 255 then 0 else a + 1),
           (log (EvDelay 50) (log (EvShow (leds s2)) s2)).
    split; [rewrite (bind_Some _ _ _ _ _ E2); reflexivity |].
    split; [| lia].
    split; [lia |].
    split; [rewrite Ha; apply rainbow_offset_step; lia |].
    split; [red; cbn [leds log];
            rewrite L2; unfold rainbow_frame;
            rewrite length_map, length_seq; reflexivity |].
    split; [cbn [mode log]; congruence |]. split; [cbn [calls log]; congruence |].
    cbn [trace log]. rewrite T2, T1, L2.
    replace (Z.to_nat (c + 1)) with (S (Z.to_nat c)) by lia.
    rewrite seq_S, flat_map_app. cbn [flat_map Nat.add]. unfold F at 3.
    rewrite Z2Nat.id by lia. rewrite <- Ha, app_nil_r, <- !app_assoc.
    reflexivity.
  - split; [lia |]. split; [reflexivity |]. split; [exact Hs |].
    split; [reflexivity |]. split; [reflexivity |].
    symmetry. apply app_nil_r.
  - lia.
  - apply Z.ltb_ge in Ec. assert (c = 2000) as -> by lia.
    change (Z.to_nat 2000) with 2000%nat in Ht.
    destruct (clear_spec s1 W) as (s' & E' & (_ & Hm' & Hc' & _) & L' & T').
    exists s'.
    split.
    { unfold bind at 1. unfold enter at 1. fold s0.
      rewrite (bind_Some _ _ _ _ _ E). exact E'. }
    split; [exact L' |]. split; [rewrite Hm', Hm; reflexivity |].
    split; [rewrite Hc', Hcs; reflexivity |].
    assert (T : trace s' = trace s ++ flat_map F (seq 0 2000) ++ [EvShow cleared]).
    { rewrite T', Ht. cbn [trace s0 called]. rewrite <- app_assoc. reflexivity. }
    split; [exact T |].
    rewrite (new_events_app _ _ _ T), delayed_app.
    unfold F.
    rewrite (proj2 (proj2 (frames_counts
               (fun k => rainbow_frame brightness (Z.of_nat k mod 256)) 50 _))).
    rewrite length_seq. reflexivity.
Qed.

(** X4. [doRainbow(b)], from any buffer: it returns after exactly 2000
    frames, 50 ms apart; in frame number [n] pixel [i] has hue
    [(i * (255 / NUM_LEDS) + n mod 256) mod 256], saturation 255 and
    brightness [b], so the hues advance by one per frame and start over
    every 256 frames; it ends with the cleared frame, reads no sensor,
    keeps the mode and spends 100000 ms in [delay]. *)
Theorem doRainbow_trace (brightness : Z) (s : State) :
  wf s ->
  exists s',
    doRainbow brightness s = Some (tt, s') /\
    leds s' = cleared /\
    mode s' = mode s /\
    calls s' = calls s ++ [FnRainbow brightness] /\
    trace s' =
      trace s
      ++ flat_map (fun k => [EvShow (rainbow_frame brightness
                                       (Z.of_nat k mod 256));
                             EvDelay 50]) (seq 0 2000)
      ++ [EvShow cleared] /\
    delayed (new_events s s') = 100000.
Proof. exact (doRainbow_run brightness s). Qed.

Lemma doRainbow_trace_witness :
  exists s',
    doRainbow 250 boot = Some (tt, s') /\
    leds s' = cleared /\
    mode s' = NIGHT /\
    calls s' = [FnRainbow 250] /\
    trace s' =
      flat_map (fun k => [EvShow (rainbow_frame 250 (Z.of_nat k mod 256));
                          EvDelay 50]) (seq 0 2000)
      ++ [EvShow cleared] /\
    delayed (new_events boot s') = 100000.
Proof.
  apply (doRainbow_trace 250 boot). reflexivity.
Defined.


(** ** Frames and timing of the routines *)

Lemma performs_of_plays r evs (c : M unit) :
  animation r (enter r ;; c) -> plays evs c ->
  reads evs = [] -> shown evs <> [] ->
  performs [r] (length (shown evs)) (delayed evs) (enter r ;; c).
Proof.
  intros Ha Hp Hr Hn s Hs.
  destruct (Hp (called r s) Hs) as (s' & E & W & Hm & Hc & T).
  destruct (Ha s Hs) as (s2 & e2 & E2 & _ & L2 & _).
  assert (E' : (enter r ;; c) s = Some (tt, s')) by exact E.
  rewrite E' in E2. injection E2 as <-.
  exists s', evs. split; [exact E' |]. split; [exact W |].
  split; [exact Hm |]. split; [exact Hc |]. split; [exact T |].
  split; [exact Hr |]. split; [reflexivity |]. split; [reflexivity |].
  destruct (shown evs); [contradiction | exact L2].
Qed.

Lemma performs_conv cs n d n' d' (c : M unit) :
  n = n' -> d = d' -> performs cs n d c -> performs cs n' d' c.
Proof. intros -> ->. exact (fun H => H). Qed.

Lemma performs_doPink_80 : performs [FnPink 80] 160 43180 (doPink 80).
Proof.
  assert (Hb : 0 <= 80 < 256) by lia.
  pose proof (performs_of_plays (FnPink 80) _ _
                (doPink_animation 80 Hb) (plays_doPink_body 80 Hb)) as H.
  eapply performs_conv; [| | apply H].
  - rewrite !shown_app, !length_app.
    rewrite !(proj1 (proj2 (frames_counts _ 20 _))), !length_seq. reflexivity.
  - rewrite !delayed_app.
    rewrite !(proj2 (proj2 (frames_counts _ 20 _))), !length_seq. reflexivity.
  - rewrite !reads_app, !(proj1 (frames_counts _ 20 _)). reflexivity.
  - rewrite !shown_app. intros Habs.
    apply (f_equal (@length Frame)) in Habs.
    rewrite !length_app in Habs. cbn in Habs. lia.
Qed.

Lemma performs_doRainbow brightness :
  performs [FnRainbow brightness] 2001 100000 (doRainbow brightness).
Proof.
  intros s Hs.
  destruct (doRainbow_run brightness s Hs) as (s' & E & L & Hm & Hc & T & D).
  eexists s', _. split; [exact E |].
  split; [red; rewrite L; apply length_replicate |].
  split; [exact Hm |]. split; [exact Hc |]. split; [exact T |].
  split; [rewrite reads_app, (proj1 (frames_counts _ 50 _)); reflexivity |].
  split; [rewrite shown_app, length_app,
            (proj1 (proj2 (frames_counts _ 50 _))), length_seq; reflexivity |].
  split; [rewrite <- (new_events_app _ _ _ T); exact D | exact L].
Qed.

Lemma doMorningRoutine_unfold w s :
  doMorningRoutine w s =
  when (day_motion w s) (doRainbow 250 ;; delay 5000) (morning_entry w s).
Proof.
  unfold doMorningRoutine, day_motion, morning_entry, bind at 1 2 3, enter,
    digitalRead.
  cbn [trace called log]. fold (upper_sample w s).
  destruct (upper_sample w s) eqn:Eu; cbn [truthy HIGH LOW negb Z.eqb ret orb].
  - reflexivity.
  - rewrite <- (truthy_b2z (lower_sample w s)).
    unfold lower_sample. rewrite Eu. cbn [b2z].
    unfold bind at 1.
    destruct (digitalIn w PIN_LOWER_SENSOR _); reflexivity.
Qed.

(** A routine of the shape [if (motion) { animation; delay(ms); }]. *)
Lemma guarded_run r n d ms (anim : M unit) (b : bool) (entry : State) :
  performs [r] (S n) d anim -> wf entry ->
  exists s' evs,
    when b (anim ;; delay ms) entry = Some (tt, s') /\ wf s' /\
    mode s' = mode entry /\
    calls s' = calls entry ++ (if b then [r] else []) /\
    trace s' = trace entry ++ evs /\ reads evs = [] /\
    length (shown evs) = (if b then S n else O) /\
    delayed evs = (if b then d + ms else 0) /\
    leds s' = (if b then cleared else leds entry) /\
    (b = false -> evs = []).
Proof.
  intros Ha Hw. destruct b.
  - destruct (performs_bind _ _ _ _ _ _ _ _ Ha (performs_delay ms) entry Hw)
      as (s' & evs & E & W & Hm & Hc & T & R & N & D & L).
    exists s', evs. split; [exact E |]. split; [exact W |].
    split; [exact Hm |]. split; [exact Hc |]. split; [exact T |].
    split; [exact R |]. split; [rewrite N; cbn; lia |].
    split; [exact D |]. split; [exact L | discriminate].
  - exists entry, []. split; [reflexivity |]. split; [exact Hw |].
    rewrite !app_nil_r. repeat split.
Qed.

Lemma day_entry_facts w s :
  wf s ->
  wf (day_entry w s) /\ mode (day_entry w s) = mode s /\
  leds (day_entry w s) = leds s /\
  calls (day_entry w s) = calls s ++ [FnDayRoutine] /\
  trace (day_entry w s) = trace s ++ either_reads w s.
Proof.
  intros Hs. unfold day_entry, either_reads.
  destruct (upper_sample w s); repeat split; try exact Hs.
  cbn [trace log called]. rewrite <- app_assoc. reflexivity.
Qed.

Lemma morning_entry_facts w s :
  wf s ->
  wf (morning_entry w s) /\ mode (morning_entry w s) = mode s /\
  leds (morning_entry w s) = leds s /\
  calls (morning_entry w s) = calls s ++ [FnMorningRoutine] /\
  trace (morning_entry w s) = trace s ++ either_reads w s.
Proof.
  intros Hs. unfold morning_entry, either_reads.
  destruct (upper_sample w s); repeat split; try exact Hs.
  cbn [trace log called]. rewrite <- app_assoc. reflexivity.
Qed.

Lemma doDayRoutine_run w s :
  wf s ->
  exists s' evs,
    doDayRoutine w s = Some (tt, s') /\ wf s' /\ mode s' = mode s /\
    calls s' = calls s ++ day_calls w s /\
    trace s' = trace s ++ either_reads w s ++ evs /\ reads evs = [] /\
    length (shown evs) = (if day_motion w s then 160%nat else O) /\
    delayed evs = (if day_motion w s then 43180 + 5000 else 0) /\
    leds s' = (if day_motion w s then cleared else leds s) /\
    (day_motion w s = false -> evs = []).
Proof.
  intros Hs. rewrite doDayRoutine_unfold.
  destruct (day_entry_facts w s Hs) as (We & Me & Le & Ce & Te).
  destruct (guarded_run (FnPink 80) 159 43180 5000 (doPink 80)
              (day_motion w s) (day_entry w s) performs_doPink_80 We)
    as (s' & evs & E & W & Hm & Hc & T & R & N & D & L & Z0).
  exists s', evs. split; [exact E |]. split; [exact W |].
  split; [congruence |].
  split.
  { rewrite Hc, Ce, <- app_assoc. unfold day_calls.
    destruct (day_motion w s); reflexivity. }
  split; [rewrite T, Te, <- app_assoc; reflexivity |].
  split; [exact R |]. split; [exact N |]. split; [exact D |].
  split; [rewrite L, Le; reflexivity | exact Z0].
Qed.

Lemma doMorningRoutine_run w s :
  wf s ->
  exists s' evs,
    doMorningRoutine w s = Some (tt, s') /\ wf s' /\ mode s' = mode s /\
    calls s' = calls s ++ FnMorningRoutine ::
                 (if day_motion w s then [FnRainbow 250] else []) /\
    trace s' = trace s ++ either_reads w s ++ evs /\ reads evs = [] /\
    length (shown evs) = (if day_motion w s then 2001%nat else O) /\
    delayed evs = (if day_motion w s then 100000 + 5000 else 0) /\
    leds s' = (if day_motion w s then cleared else leds s) /\
    (day_motion w s = false -> evs = []).
Proof.
  intros Hs. rewrite doMorningRoutine_unfold.
  destruct (morning_entry_facts w s Hs) as (We & Me & Le & Ce & Te).
  destruct (guarded_run (FnRainbow 250) 2000 100000 5000 (doRainbow 250)
              (day_motion w s) (morning_entry w s) (performs_doRainbow 250) We)
    as (s' & evs & E & W & Hm & Hc & T & R & N & D & L & Z0).
  exists s', evs. split; [exact E |]. split; [exact W |].
  split; [congruence |].
  split.
  { rewrite Hc, Ce, <- app_assoc.
    destruct (day_motion w s); reflexivity. }
  split; [rewrite T, Te, <- app_assoc; reflexivity |].
  split; [exact R |]. split; [exact N |]. split; [exact D |].
  split; [rewrite L, Le; reflexivity | exact Z0].
Qed.

Lemma doNightRoutine_run w s :
  wf s ->
  exists s' evs,
    doNightRoutine w s = Some (tt, s') /\ wf s' /\ mode s' = mode s /\
    calls s' = calls s ++ night_calls w s /\
    trace s' = trace s ++ both_reads w s ++ evs /\ reads evs = [] /\
    length (shown evs) =
      ((if lower_sample w s then 173 else 0) +
       (if upper_sample w s then 174 else 0))%nat /\
    delayed evs =
      (if lower_sample w s then 42320 + 2500 else 0) +
      (if upper_sample w s then 42330 + 2500 else 0) /\
    leds s' = (if lower_sample w s || upper_sample w s
               then cleared else leds s) /\
    (lower_sample w s || upper_sample w s = false -> evs = []).
Proof.
  intros Hs. rewrite doNightRoutine_unfold.
  assert (Hw : wf (night_entry w s)) by exact Hs.
  destruct (guarded_run FnLightsFromBottom 172 42320 2500 lightsFromBottom
              (lower_sample w s) (night_entry w s) performs_lightsFromBottom Hw)
    as (s1 & e1 & E1 & W1 & M1 & C1 & T1 & R1 & N1 & D1 & L1 & Z1).
  destruct (guarded_run FnLightsFromTop 173 42330 2500 lightsFromTop
              (upper_sample w s) s1 performs_lightsFromTop W1)
    as (s2 & e2 & E2 & W2 & M2 & C2 & T2 & R2 & N2 & D2 & L2 & Z2).
  exists s2, (e1 ++ e2).
  split; [rewrite (bind_Some _ _ _ _ _ E1); exact E2 |].
  split; [exact W2 |].
  split; [rewrite M2, M1; reflexivity |].
  split.
  { rewrite C2, C1. unfold night_calls. cbn [calls night_entry log called].
    rewrite <- !app_assoc. reflexivity. }
  split.
  { rewrite T2, T1. unfold both_reads. cbn [trace night_entry log called].
    rewrite <- !app_assoc. reflexivity. }
  split; [rewrite reads_app, R1, R2; reflexivity |].
  split; [rewrite shown_app, length_app, N1, N2; reflexivity |].
  split; [rewrite delayed_app, D1, D2; reflexivity |].
  split.
  { rewrite L2, L1.
    destruct (lower_sample w s), (upper_sample w s); reflexivity. }
  intros Hb. apply orb_false_elim in Hb. destruct Hb as (Hl & Hu).
  rewrite (Z1 Hl), (Z2 Hu). reflexivity.
Qed.

Lemma loop_run w s :
  wf s ->
  exists s' evs,
    loop w s = Some (tt, s') /\ wf s' /\
    mode s' = mode (classified w s) /\
    calls s' = calls s ++ loop_calls w s /\
    trace s' = trace s ++ pass_reads w s ++ evs /\ reads evs = [] /\
    length (shown evs) = pass_frames w s /\
    delayed evs = pass_delay w s /\
    leds s' = match pass_frames w s with O => leds s | S _ => cleared end /\
    (pass_frames w s = O -> evs = []).
Proof.
  intros Hs. rewrite loop_unfold.
  unfold loop_calls, pass_reads, pass_frames, pass_delay. cbv zeta.
  assert (Hw : wf (classified w s)) by exact Hs.
  assert (Ht0 : trace (classified w s) =
                trace s ++ [EvAnalogRead PIN_AMBIENT
                              (analogIn w PIN_AMBIENT (trace s))])
    by reflexivity.
  assert (Hc0 : calls (classified w s) = calls s) by reflexivity.
  assert (Hl0 : leds (classified w s) = leds s) by reflexivity.
  pose proof (nextMode_spec_valid (mode s) (ambient_sample w s)) as Hv.
  change (nextMode_spec (mode s) (ambient_sample w s))
    with (mode (classified w s)) in Hv.
  destruct Hv as [Hv | [Hv | [Hv | Hv]]]; rewrite Hv; cbn [Z.eqb orb
    NIGHT MORNING DAY EVENING Pos.eqb].
  - destruct (doNightRoutine_run w _ Hw)
      as (s' & evs & E & W & M' & C' & T' & R & N & D & L & Z0).
    exists s', evs. rewrite <- Hv, <- Hc0, <- Hl0.
    split; [exact E |]. split; [exact W |]. split; [exact M' |].
    split; [exact C' |].
    split; [rewrite T', Ht0, <- app_assoc; reflexivity |].
    split; [exact R |]. split; [exact N |]. split; [exact D |].
    split.
    { rewrite L.
      destruct (lower_sample w (classified w s)),
        (upper_sample w (classified w s)); reflexivity. }
    intros H0. apply Z0.
    destruct (lower_sample w (classified w s)),
      (upper_sample w (classified w s)); (reflexivity || discriminate H0).
  - destruct (doDayRoutine_run w _ Hw)
      as (s' & evs & E & W & M' & C' & T' & R & N & D & L & Z0).
    exists s', evs. rewrite <- Hv, <- Hc0, <- Hl0.
    split; [exact E |]. split; [exact W |]. split; [exact M' |].
    split; [exact C' |].
    split; [rewrite T', Ht0, <- app_assoc; reflexivity |].
    split; [exact R |]. split; [exact N |]. split; [exact D |].
    split; [rewrite L; destruct (day_motion w (classified w s)); reflexivity |].
    intros H0. apply Z0.
    destruct (day_motion w (classified w s)); (reflexivity || discriminate H0).
  - destruct (doDayRoutine_run w _ Hw)
      as (s' & evs & E & W & M' & C' & T' & R & N & D & L & Z0).
    exists s', evs. rewrite <- Hv, <- Hc0, <- Hl0.
    split; [exact E |]. split; [exact W |]. split; [exact M' |].
    split; [exact C' |].
    split; [rewrite T', Ht0, <- app_assoc; reflexivity |].
    split; [exact R |]. split; [exact N |]. split; [exact D |].
    split; [rewrite L; destruct (day_motion w (classified w s)); reflexivity |].
    intros H0. apply Z0.
    destruct (day_motion w (classified w s)); (reflexivity || discriminate H0).
  - rewrite doEveningRoutine_unfold.
    assert (Hw' : wf (called FnEveningRoutine (classified w s))) by exact Hw.
    destruct (doNightRoutine_run w _ Hw')
      as (s' & evs & E & W & M' & C' & T' & R & N & D & L & Z0).
    exists s', evs. rewrite <- Hv, <- Hc0, <- Hl0.
    split; [exact E |]. split; [exact W |]. split; [exact M' |].
    split; [rewrite C'; cbn [calls called]; rewrite <- app_assoc; reflexivity |].
    split.
    { rewrite T'. cbn [trace called]. rewrite Ht0, <- app_assoc. reflexivity. }
    split; [exact R |]. split; [exact N |]. split; [exact D |].
    change (lower_sample w (called FnEveningRoutine (classified w s)))
      with (lower_sample w (classified w s)) in *.
    change (upper_sample w (called FnEveningRoutine (classified w s)))
      with (upper_sample w (classified w s)) in *.
    split.
    { rewrite L. cbn [leds called].
      destruct (lower_sample w (classified w s)),
        (upper_sample w (classified w s)); reflexivity. }
    intros H0. apply Z0.
    destruct (lower_sample w (classified w s)),
      (upper_sample w (classified w s)); (reflexivity || discriminate H0).
Qed.

Lemma loop_calls_dispatched w s : Forall dispatched (loop_calls w s).
Proof.
  unfold loop_calls, day_calls, night_calls, dispatched. cbv zeta.
  destruct ((mode (classified w s) =? MORNING) || (mode (classified w s) =? DAY)),
    (mode (classified w s) =? NIGHT), (mode (classified w s) =? EVENING),
    (day_motion w (classified w s)), (lower_sample w (classified w s)),
    (upper_sample w (classified w s)); cbn [app];
    repeat (constructor; [tauto |]); constructor.
Qed.

(** X5. The Day routine samples the upper sensor and, only when that
    one is low, the lower sensor.  With no motion it returns at once:
    nothing else is added to the trace and the buffer is untouched.
    With motion it runs [doPink(80)] and then [delay(5000)]: 160 frames
    and 48180 ms of delay, with no further read, and the buffer ends
    cleared. *)
Theorem doDayRoutine_behaviour (w : World) (s : State) :
  wf s ->
  exists s' evs,
    doDayRoutine w s = Some (tt, s') /\
    mode s' = mode s /\
    new_events s s' =
      (if upper_sample w s
       then [EvDigitalRead PIN_UPPER_SENSOR HIGH]
       else [EvDigitalRead PIN_UPPER_SENSOR LOW;
             EvDigitalRead PIN_LOWER_SENSOR (b2z (lower_sample w s))])
      ++ evs /\
    reads evs = [] /\
    (upper_sample w s = false -> lower_sample w s = false ->
       evs = [] /\ leds s' = leds s /\ new_calls s s' = [FnDayRoutine]) /\
    (upper_sample w s = true \/ lower_sample w s = true ->
       new_calls s s' = [FnDayRoutine; FnPink 80] /\
       length (shown evs) = 160%nat /\ delayed evs = 48180 /\
       leds s' = cleared).
Proof.
  intros Hs.
  destruct (doDayRoutine_run w s Hs)
    as (s' & evs & E & _ & Hm & Hc & T & R & N & D & L & Z0).
  exists s', evs. split; [exact E |]. split; [exact Hm |].
  split; [apply new_events_app; exact T |]. split; [exact R |].
  rewrite (new_calls_app _ _ _ Hc). unfold day_calls.
  unfold day_motion in *.
  split.
  - intros Hu Hl. rewrite Hu, Hl in *. cbn [orb] in *. auto.
  - intros Hb.
    assert (Hb' : upper_sample w s || lower_sample w s = true).
    { destruct Hb as [-> | ->]; [reflexivity | apply orb_true_r]. }
    rewrite Hb' in *. auto.
Qed.

Lemma doDayRoutine_behaviour_witness :
  exists s' evs,
    doDayRoutine (steady 0 true false) boot = Some (tt, s') /\
    mode s' = NIGHT /\
    new_events boot s' = [EvDigitalRead PIN_UPPER_SENSOR HIGH] ++ evs /\
    reads evs = [] /\
    (true = false -> false = false ->
       evs = [] /\ leds s' = cleared /\ new_calls boot s' = [FnDayRoutine]) /\
    (true = true \/ false = true ->
       new_calls boot s' = [FnDayRoutine; FnPink 80] /\
       length (shown evs) = 160%nat /\ delayed evs = 48180 /\
       leds s' = cleared).
Proof.
  apply (doDayRoutine_behaviour (steady 0 true false) boot). reflexivity.
Defined.

(** X6. The Morning routine samples the sensors as the Day routine
    does, returns at once without motion, and with motion runs
    [doRainbow(250)] and then [delay(5000)]: 2001 frames and 105000 ms
    of delay, with no further read, and the buffer ends cleared. *)
Theorem doMorningRoutine_behaviour (w : World) (s : State) :
  wf s ->
  exists s' evs,
    doMorningRoutine w s = Some (tt, s') /\
    mode s' = mode s /\
    new_events s s' =
      (if upper_sample w s
       then [EvDigitalRead PIN_UPPER_SENSOR HIGH]
       else [EvDigitalRead PIN_UPPER_SENSOR LOW;
             EvDigitalRead PIN_LOWER_SENSOR (b2z (lower_sample w s))])
      ++ evs /\
    reads evs = [] /\
    (upper_sample w s = false -> lower_sample w s = false ->
       evs = [] /\ leds s' = leds s /\ new_calls s s' = [FnMorningRoutine]) /\
    (upper_sample w s = true \/ lower_sample w s = true ->
       new_calls s s' = [FnMorningRoutine; FnRainbow 250] /\
       length (shown evs) = 2001%nat /\ delayed evs = 105000 /\
       leds s' = cleared).
Proof.
  intros Hs.
  destruct (doMorningRoutine_run w s Hs)
    as (s' & evs & E & _ & Hm & Hc & T & R & N & D & L & Z0).
  exists s', evs. split; [exact E |]. split; [exact Hm |].
  split; [apply new_events_app; exact T |]. split; [exact R |].
  rewrite (new_calls_app _ _ _ Hc).
  unfold day_motion in *.
  split.
  - intros Hu Hl. rewrite Hu, Hl in *. cbn [orb] in *. auto.
  - intros Hb.
    assert (Hb' : upper_sample w s || lower_sample w s = true).
    { destruct Hb as [-> | ->]; [reflexivity | apply orb_true_r]. }
    rewrite Hb' in *. auto.
Qed.

Lemma doMorningRoutine_behaviour_witness :
  exists s' evs,
    doMorningRoutine (steady 0 false true) boot = Some (tt, s') /\
    mode s' = NIGHT /\
    new_events boot s' =
      [EvDigitalRead PIN_UPPER_SENSOR LOW; EvDigitalRead PIN_LOWER_SENSOR HIGH]
      ++ evs /\
    reads evs = [] /\
    (false = false -> true = false ->
       evs = [] /\ leds s' = cleared /\
       new_calls boot s' = [FnMorningRoutine]) /\
    (false = true \/ true = true ->
       new_calls boot s' = [FnMorningRoutine; FnRainbow 250] /\
       length (shown evs) = 2001%nat /\ delayed evs = 105000 /\
       leds s' = cleared).
Proof.
  apply (doMorningRoutine_behaviour (steady 0 false true) boot). reflexivity.
Defined.

(** X7. One pass of [loop] always returns.  All its sensor reads come
    first: the ambient light, then the motion sensors (at most three
    reads in all); after them the pass presents frames and waits
    without reading anything.  The delay it spends is 48180 ms in
    Morning or Day with motion, 44820 ms (lower zone), 44830 ms (upper
    zone) or 89650 ms (both) in Night or Evening, and 0 without motion,
    so never more than 89650 ms. *)
Theorem loop_pass_timing (w : World) (s : State) :
  wf s ->
  exists s' evs,
    loop w s = Some (tt, s') /\
    new_events s s' = pass_reads w s ++ evs /\
    reads evs = [] /\
    length (shown evs) = pass_frames w s /\
    delayed evs = pass_delay w s /\
    (length (pass_reads w s) <= 3)%nat /\
    0 <= pass_delay w s <= 89650.
Proof.
  intros Hs.
  destruct (loop_run w s Hs) as (s' & evs & E & _ & _ & _ & T & R & N & D & _ & _).
  exists s', evs. split; [exact E |].
  split; [apply new_events_app; exact T |].
  split; [exact R |]. split; [exact N |]. split; [exact D |].
  unfold pass_reads, pass_delay, either_reads, both_reads. cbv zeta.
  destruct ((mode (classified w s) =? MORNING) || (mode (classified w s) =? DAY)),
    ((mode (classified w s) =? NIGHT) || (mode (classified w s) =? EVENING)),
    (day_motion w (classified w s)), (lower_sample w (classified w s)),
    (upper_sample w (classified w s)); cbn [length]; split; lia.
Qed.

Lemma loop_pass_timing_witness :
  exists s' evs,
    loop (steady 0 true true) boot = Some (tt, s') /\
    new_events boot s' =
      [EvAnalogRead PIN_AMBIENT 0;
       EvDigitalRead PIN_UPPER_SENSOR HIGH;
       EvDigitalRead PIN_LOWER_SENSOR HIGH] ++ evs /\
    reads evs = [] /\
    length (shown evs) = 347%nat /\
    delayed evs = 89650 /\
    (3 <= 3)%nat /\
    0 <= 89650 <= 89650.
Proof.
  apply (loop_pass_timing (steady 0 true true) boot). reflexivity.
Defined.

(** X8. A pass of [loop] in which neither motion sensor is high does
    nothing but read: in every mode, its events are the ambient read
    and one low read of each motion sensor, no frame is presented, no
    delay is spent, no animation is called and the buffer is
    untouched. *)
Theorem loop_idle_pass (w : World) (s : State) :
  wf s ->
  upper_sample w (classified w s) = false ->
  lower_sample w (classified w s) = false ->
  exists s',
    loop w s = Some (tt, s') /\
    leds s' = leds s /\
    new_events s s' =
      [EvAnalogRead PIN_AMBIENT (analogIn w PIN_AMBIENT (trace s));
       EvDigitalRead PIN_UPPER_SENSOR LOW;
       EvDigitalRead PIN_LOWER_SENSOR LOW] /\
    Forall (fun r => r = FnDayRoutine \/ r = FnNightRoutine \/
                     r = FnEveningRoutine) (new_calls s s').
Proof.
  intros Hs Hu Hl.
  destruct (loop_run w s Hs)
    as (s' & evs & E & _ & _ & C & T & R & N & D & L & Z0).
  exists s'. split; [exact E |].
  assert (Hf : pass_frames w s = O).
  { unfold pass_frames, day_motion. cbv zeta. rewrite Hu, Hl.
    destruct ((mode (classified w s) =? MORNING) || (mode (classified w s) =? DAY)),
      ((mode (classified w s) =? NIGHT) || (mode (classified w s) =? EVENING));
      reflexivity. }
  rewrite Hf in L, N. split; [exact L |].
  assert (Hevs : evs = []) by (apply Z0; exact Hf).
  split.
  - apply new_events_app. rewrite T, Hevs, app_nil_r.
    unfold pass_reads, either_reads, both_reads. cbv zeta. rewrite Hu, Hl.
    pose proof (nextMode_spec_valid (mode s) (ambient_sample w s)) as Hv.
    change (nextMode_spec (mode s) (ambient_sample w s))
      with (mode (classified w s)) in Hv.
    destruct Hv as [Hv | [Hv | [Hv | Hv]]]; rewrite Hv; reflexivity.
  - rewrite (new_calls_app _ _ _ C).
    unfold loop_calls, day_calls, night_calls, day_motion. cbv zeta.
    rewrite Hu, Hl.
    destruct ((mode (classified w s) =? MORNING) || (mode (classified w s) =? DAY)),
      (mode (classified w s) =? NIGHT), (mode (classified w s) =? EVENING);
      cbn [orb app]; repeat (constructor; [tauto |]); constructor.
Qed.

Lemma loop_idle_pass_witness :
  exists s',
    loop (steady 400 false false) boot = Some (tt, s') /\
    leds s' = cleared /\
    new_events boot s' =
      [EvAnalogRead PIN_AMBIENT 400;
       EvDigitalRead PIN_UPPER_SENSOR LOW;
       EvDigitalRead PIN_LOWER_SENSOR LOW] /\
    Forall (fun r => r = FnDayRoutine \/ r = FnNightRoutine \/
                     r = FnEveningRoutine) (new_calls boot s').
Proof.
  apply (loop_idle_pass (steady 400 false false) boot); reflexivity.
Defined.

(** ** Power-on and the passes after it *)

Lemma setup_run w s :
  wf s ->
  exists s',
    setup w s = Some (tt, s') /\ wf s' /\ mode s' = NIGHT /\
    leds s' = cleared /\ calls s' = calls s /\
    trace s' =
      trace s ++ [EvAnalogRead PIN_AMBIENT (analogIn w PIN_AMBIENT (trace s));
                  EvShow cleared].
Proof.
  intros Hs.
  set (s1 := with_mode NIGHT
               (log (EvAnalogRead PIN_AMBIENT
                       (analogIn w PIN_AMBIENT (trace s))) s)).
  destruct (clear_spec s1 Hs) as (s' & E & (W & Hm & Hc & _) & L & T).
  exists s'. split; [exact E |]. split; [exact W |].
  split; [exact Hm |]. split; [exact L |]. split; [exact Hc |].
  rewrite T. cbn [trace s1 with_mode log]. rewrite <- app_assoc. reflexivity.
Qed.

Lemma passes_run w n :
  forall s, wf s -> leds s = cleared -> valid_mode (mode s) ->
    exists s' cs,
      passes w n s = Some (tt, s') /\ wf s' /\ leds s' = cleared /\
      valid_mode (mode s') /\
      calls s' = calls s ++ cs /\ Forall dispatched cs.
Proof.
  induction n as [| n IH]; intros s Hs Hl Hv.
  - exists s, []. split; [reflexivity |]. split; [exact Hs |].
    split; [exact Hl |]. split; [exact Hv |].
    split; [symmetry; apply app_nil_r | constructor].
  - destruct (loop_run w s Hs) as (s1 & evs & E & W & M1 & C1 & _ & _ & _ & _ & L1 & _).
    assert (L1' : leds s1 = cleared).
    { rewrite L1. destruct (pass_frames w s); [exact Hl | reflexivity]. }
    assert (V1 : valid_mode (mode s1))
      by (rewrite M1; apply nextMode_spec_valid).
    destruct (IH s1 W L1' V1) as (s' & cs & E' & W' & L' & V' & C' & D').
    exists s', (loop_calls w s ++ cs).
    split; [cbn [passes]; rewrite (bind_Some _ _ _ _ _ E); exact E' |].
    split; [exact W' |]. split; [exact L' |]. split; [exact V' |].
    split; [rewrite C', C1, <- app_assoc; reflexivity |].
    apply Forall_app. split; [apply loop_calls_dispatched | exact D'].
Qed.

(** X9. Power-on followed by any number of passes of [loop], in any
    environment and from any prior contents of the globals: the run
    returns; between passes the buffer is always cleared and the mode is
    one of the four; and the only routines ever called are the Day,
    Night and Evening routines, the two fill animations and
    [doPink(80)], so never [doRainbow], never [doMorningRoutine], and
    never a pink fade at another brightness. *)
Theorem sketch_invariants (w : World) (n : nat) (s : State) :
  wf s ->
  exists s',
    sketch w n s = Some (tt, s') /\
    leds s' = cleared /\
    valid_mode (mode s') /\
    Forall dispatched (new_calls s s') /\
    (forall b, ~ In (FnRainbow b) (new_calls s s')) /\
    ~ In FnMorningRoutine (new_calls s s') /\
    (forall b, In (FnPink b) (new_calls s s') -> b = 80).
Proof.
  intros Hs.
  destruct (setup_run w s Hs) as (s1 & E1 & W1 & M1 & L1 & C1 & _).
  assert (V1 : valid_mode (mode s1)) by (rewrite M1; left; reflexivity).
  destruct (passes_run w n s1 W1 L1 V1) as (s' & cs & E & _ & L & V & C & D).
  exists s'.
  split; [unfold sketch; rewrite (bind_Some _ _ _ _ _ E1); exact E |].
  split; [exact L |]. split; [exact V |].
  rewrite C1 in C. rewrite (new_calls_app _ _ _ C).
  split; [exact D |].
  rewrite List.Forall_forall in D.
  split; [| split].
  - intros b Hin. apply D in Hin. unfold dispatched in Hin.
    intuition discriminate.
  - intros Hin. apply D in Hin. unfold dispatched in Hin.
    intuition discriminate.
  - intros b Hin. apply D in Hin. unfold dispatched in Hin.
    destruct Hin as [H | [H | [H | [H | [H | H]]]]]; try discriminate H.
    injection H as ->. reflexivity.
Qed.

Lemma sketch_invariants_witness :
  exists s',
    sketch (steady 600 true false) 3 boot = Some (tt, s') /\
    leds s' = cleared /\
    valid_mode (mode s') /\
    Forall dispatched (new_calls boot s') /\
    (forall b, ~ In (FnRainbow b) (new_calls boot s')) /\
    ~ In FnMorningRoutine (new_calls boot s') /\
    (forall b, In (FnPink b) (new_calls boot s') -> b = 80).
Proof.
  apply (sketch_invariants (steady 600 true false) 3 boot). reflexivity.
Defined.

(** X10. [setup()] ignores what it reads and whatever the globals held:
    it always leaves mode Night and the buffer cleared, having read the
    ambient light once and presented the cleared frame.  So the first
    pass of [loop] after power-on ends in Morning when the light level
    is above 300 and in Night otherwise, never in Day or Evening,
    however bright it is. *)
Theorem power_on_first_pass (w : World) (s : State) :
  wf s ->
  exists s1 s2,
    setup w s = Some (tt, s1) /\
    mode s1 = NIGHT /\ leds s1 = cleared /\
    new_events s s1 =
      [EvAnalogRead PIN_AMBIENT (analogIn w PIN_AMBIENT (trace s));
       EvShow cleared] /\
    loop w s1 = Some (tt, s2) /\
    (mode s2 = MORNING <-> ambient_sample w s1 > 300) /\
    (mode s2 = NIGHT <-> ambient_sample w s1 <= 300).
Proof.
  intros Hs.
  destruct (setup_run w s Hs) as (s1 & E1 & W1 & M1 & L1 & _ & T1).
  destruct (loop_run w s1 W1) as (s2 & evs & E2 & _ & M2 & _).
  exists s1, s2. split; [exact E1 |]. split; [exact M1 |].
  split; [exact L1 |]. split; [apply new_events_app; exact T1 |].
  split; [exact E2 |].
  rewrite M2. cbn [mode classified with_mode]. rewrite M1.
  unfold nextMode_spec. cbn [Z.eqb NIGHT].
  destruct (Z.gtb_spec (ambient_sample w s1) 300);
    unfold MORNING, NIGHT; split; split; intros; (lia || reflexivity || discriminate).
Qed.

Lemma power_on_first_pass_witness :
  exists s1 s2,
    setup (steady 900 false false) (with_mode DAY boot) = Some (tt, s1) /\
    mode s1 = NIGHT /\ leds s1 = cleared /\
    new_events (with_mode DAY boot) s1 =
      [EvAnalogRead PIN_AMBIENT 900; EvShow cleared] /\
    loop (steady 900 false false) s1 = Some (tt, s2) /\
    (mode s2 = MORNING <-> ambient_sample (steady 900 false false) s1 > 300) /\
    (mode s2 = NIGHT <-> ambient_sample (steady 900 false false) s1 <= 300).
Proof.
  apply (power_on_first_pass (steady 900 false false) (with_mode DAY boot)).
  reflexivity.
Defined.

(** ** More on the mode classifier *)

Lemma classify_cons r rest s :
  classify (r :: rest) s =
  match classify rest (with_mode (nextMode_spec (mode s) r) s) with
  | Some (ms, s') => Some (nextMode_spec (mode s) r :: ms, s')
  | None => None
  end.
Proof.
  cbn [classify]. rewrite (bind_Some _ _ _ _ _ (setLedMode_eq r s)).
  unfold bind at 1. unfold set_mode at 1.
  change (with_mode (nextMode_spec (mode s) r)
            (with_mode (nextMode_spec (mode s) r) s))
    with (with_mode (nextMode_spec (mode s) r) s).
  unfold bind.
  destruct (classify rest (with_mode (nextMode_spec (mode s) r) s))
    as [[ms s'] |]; reflexivity.
Qed.

Lemma in_band_iff m i :
  valid_mode m -> (nextMode_spec m i = m <-> in_band m i).
Proof.
  unfold valid_mode, in_band, nextMode_spec, NIGHT, MORNING, DAY, EVENING.
  intros [-> | [-> | [-> | ->]]]; cbn [Z.eqb Pos.eqb];
    destruct (Z.gtb_spec i 300), (Z.gtb_spec i 500), (Z.ltb_spec i 100),
      (Z.ltb_spec i 300); split; intros Hx; try lia;
    try discriminate Hx; try reflexivity.
Qed.

Lemma classify_kept readings :
  forall s, valid_mode (mode s) ->
    Forall (in_band (mode s)) readings ->
    exists ms s',
      classify readings s = Some (ms, s') /\
      Forall (fun m => m = mode s) ms /\
      length ms = length readings /\ mode s' = mode s.
Proof.
  induction readings as [| r rest IH]; intros s Hv Hb.
  - exists [], s. repeat split. constructor.
  - apply Forall_cons in Hb. destruct Hb as (Hr & Hrest).
    apply (in_band_iff _ _ Hv) in Hr.
    rewrite classify_cons, Hr.
    destruct (IH (with_mode (mode s) s) Hv Hrest)
      as (ms & s' & E & Hall & Hlen & Hm).
    rewrite E. exists (mode s :: ms), s'.
    split; [reflexivity |].
    split; [constructor; [reflexivity | exact Hall] |].
    split; [cbn; congruence | exact Hm].
Qed.

(** X11. Each mode has a band of light levels on which the classifier
    keeps it, and leaves it on every level outside: Night up to 300,
    Morning and Evening from 100 to 500, Day from 300 up.  Fed any
    sequence of readings inside the band of its current mode, the
    classifier answers that mode after every reading. *)
Theorem stability_bands (readings : list Z) (s : State) :
  valid_mode (mode s) ->
  (forall i, (exists s', setLedMode i s = Some (mode s, s')) <->
             in_band (mode s) i) /\
  (Forall (in_band (mode s)) readings ->
   exists ms s',
     classify readings s = Some (ms, s') /\
     Forall (fun m => m = mode s) ms /\
     length ms = length readings /\
     mode s' = mode s).
Proof.
  intros Hv. split.
  - intros i. rewrite <- (in_band_iff _ i Hv). rewrite setLedMode_eq. split.
    + intros (s' & H). injection H as Hm _. exact Hm.
    + intros H. rewrite H. eexists. reflexivity.
  - apply classify_kept. exact Hv.
Qed.

Lemma stability_bands_witness :
  (forall i, (exists s', setLedMode i (with_mode MORNING boot)
                         = Some (MORNING, s')) <->
             in_band MORNING i) /\
  (Forall (in_band MORNING) [100; 500; 250] ->
   exists ms s',
     classify [100; 500; 250] (with_mode MORNING boot) = Some (ms, s') /\
     Forall (fun m => m = MORNING) ms /\
     length ms = 3%nat /\
     mode s' = MORNING).
Proof.
  apply (stability_bands [100; 500; 250] (with_mode MORNING boot)).
  right. left. reflexivity.
Defined.

Lemma nextMode_settles m i :
  valid_mode m ->
  nextMode_spec (nextMode_spec (nextMode_spec m i) i) i =
  nextMode_spec (nextMode_spec m i) i.
Proof.
  unfold valid_mode, nextMode_spec, NIGHT, MORNING, DAY, EVENING.
  intros [-> | [-> | [-> | ->]]]; cbn [Z.eqb Pos.eqb];
    destruct (Z.gtb_spec i 300), (Z.gtb_spec i 500), (Z.ltb_spec i 100),
      (Z.ltb_spec i 300); cbn [Z.eqb Pos.eqb]; try lia; try reflexivity;
    repeat match goal with
           | |- context [?a >? ?b] => destruct (Z.gtb_spec a b)
           | |- context [?a <? ?b] => destruct (Z.ltb_spec a b)
           end; cbn [Z.eqb Pos.eqb]; try lia; try reflexivity.
Qed.

(** X12. Under a constant light level the classifier, started in any of
    the four modes, reaches its final mode after at most two readings:
    from the second reading on it answers the same mode every time, and
    that mode is one the level keeps.  (Two are needed: Night under
    bright light passes through Morning before Day.) *)
Theorem classifier_settles (i : Z) (n : nat) (s : State) :
  valid_mode (mode s) ->
  exists a b s',
    classify (replicate (2 + n) i) s = Some (a :: replicate (1 + n) b, s') /\
    mode s' = b /\
    in_band b i.
Proof.
  intros Hv.
  set (a := nextMode_spec (mode s) i).
  set (b := nextMode_spec a i).
  assert (Va : valid_mode a) by apply nextMode_spec_valid.
  assert (Vb : valid_mode b) by apply nextMode_spec_valid.
  assert (Hb : in_band b i).
  { apply (in_band_iff _ _ Vb). apply nextMode_settles. exact Hv. }
  destruct (classify_kept (replicate n i) (with_mode b (with_mode a s)) Vb)
    as (ms & s' & E & Hall & Hlen & Hm).
  { apply Forall_replicate. exact Hb. }
  exists a, b, s'.
  cbn [replicate Nat.add]. rewrite !classify_cons. fold a.
  change (mode (with_mode a s)) with a. fold b. rewrite E.
  split; [| split; [exact Hm | exact Hb]].
  f_equal. f_equal. f_equal. f_equal.
  rewrite length_replicate in Hlen.
  clear E. revert n Hlen. induction Hall as [| m ms Hm' _ IH]; intros n Hlen.
  - destruct n; [reflexivity | discriminate Hlen].
  - destruct n as [| n]; [discriminate Hlen |].
    cbn [replicate]. rewrite Hm'. f_equal. apply IH.
    cbn in Hlen. congruence.
Qed.

Lemma classifier_settles_witness :
  exists a b s',
    classify (replicate 5 900) boot = Some (a :: replicate 4 b, s') /\
    mode s' = b /\
    in_band b 900.
Proof.
  apply (classifier_settles 900 3 boot). left. reflexivity.
Defined.

(** ** The growth phase of "fill from bottom" *)

Lemma bottom_lit_cleared : bottom_lit (NUM_LEDS - 1) cleared.
Proof.
  unfold bottom_lit, cleared. split; [apply length_replicate |].
  split; intros i Hi; [lia |]. intros Hn.
  apply lookup_replicate_2. lia.
Qed.

Lemma bottom_lit_insert q j (l : Frame) :
  bottom_lit q l -> q <= j -> 0 <= j < NUM_LEDS ->
  bottom_lit (Z.min (j - 1) q) (<[Z.to_nat j := gradient j]> l).
Proof.
  intros (Hlen & Hlit & Hdark) Hq Hj.
  split; [rewrite length_insert; exact Hlen |].
  split.
  - intros i Hi. destruct (decide (Z.to_nat j = i)) as [<- | Hne].
    + rewrite list_lookup_insert_eq by lia.
      rewrite Z2Nat.id by lia. reflexivity.
    + rewrite list_lookup_insert_ne by exact Hne. apply Hlit. lia.
  - intros i Hi Hn. rewrite list_lookup_insert_ne by lia.
    apply Hdark; lia.
Qed.

(** The inner loop of the growth phase at loop variable [L]: it
    repaints the pixels above [L] and touches nothing else. *)
Lemma paint_bottom L p s :
  0 <= L <= p -> p <= NUM_LEDS - 1 -> bottom_lit p (leds s) ->
  exists s',
    for_loop FUEL_U8 (fun led => led >? L) (fun led => u8 (led - 1))
      (fun led _ =>
         let color := u8 (led * hueFactor) in setLed led (CHSV color 255 60))
      (u8 (NUM_LEDS - 1)) tt s = Some (tt, s') /\
    bottom_lit L (leds s') /\
    mode s' = mode s /\ calls s' = calls s /\ trace s' = trace s.
Proof.
  intros HL Hp Hlit. unfold NUM_LEDS in Hp.
  change (u8 (NUM_LEDS - 1)) with 112.
  destruct (for_loop_total
              (fun j (_ : unit) s1 =>
                 L <= j <= 112 /\ bottom_lit (Z.min j p) (leds s1) /\
                 mode s1 = mode s /\ calls s1 = calls s /\ trace s1 = trace s)
              (fun j => Z.to_nat j)
              (fun led => led >? L) (fun led => u8 (led - 1))
              (fun led _ =>
                 let color := u8 (led * hueFactor) in
                 setLed led (CHSV color 255 60)))
    with (fuel := FUEL_U8) (x := 112) (a := tt) (s := s)
    as (j & [] & s' & E & (Hj & Hl & Hm & Hc & Ht) & Ec).
  - intros j [] s1 (Hj & Hl & Hm & Hc & Ht) Ec. apply Z.gtb_lt in Ec.
    cbv zeta. rewrite code_gradient by (unfold NUM_LEDS; lia).
    rewrite setLed_ok
      by (rewrite (proj1 Hl); unfold NUM_LEDS; lia).
    eexists tt, _. split; [reflexivity |].
    rewrite u8_small by lia.
    split; [| lia].
    split; [lia |]. split; [| cbn; auto].
    cbn [leds with_leds].
    replace (Z.min (j - 1) p) with (Z.min (j - 1) (Z.min j p)) by lia.
    apply bottom_lit_insert; [exact Hl | lia | unfold NUM_LEDS; lia].
  - split; [lia |]. split; [| auto].
    replace (Z.min 112 p) with p by lia. exact Hlit.
  - unfold FUEL_U8. lia.
  - rewrite Z.gtb_ltb in Ec. apply Z.ltb_ge in Ec.
    exists s'. split; [exact E |].
    replace (Z.min j p) with L in Hl by lia. auto.
Qed.

Lemma fillFromBottom_frames s :
  leds s = cleared ->
  exists s' evs,
    fillFromBottom s = Some (tt, s') /\
    bottom_lit 1 (leds s') /\
    mode s' = mode s /\ calls s' = calls s /\
    trace s' = trace s ++ evs /\ reads evs = [] /\
    length (shown evs) = Z.to_nat (NUM_LEDS - 1) /\
    forall n, 0 <= n < NUM_LEDS - 1 ->
      exists f, shown evs !! Z.to_nat n = Some f /\
                bottom_lit (NUM_LEDS - 1 - n) f.
Proof.
  intros Hclr. unfold fillFromBottom.
  change (u8 (NUM_LEDS - 1)) with 112 at 2.
  destruct (for_loop_total
              (fun k (_ : unit) s1 =>
                 0 <= k <= 112 /\
                 bottom_lit (Z.min (k + 1) 112) (leds s1) /\
                 mode s1 = mode s /\ calls s1 = calls s /\
                 exists evs,
                   trace s1 = trace s ++ evs /\ reads evs = [] /\
                   length (shown evs) = Z.to_nat (112 - k) /\
                   forall n, 0 <= n < 112 - k ->
                     exists f, shown evs !! Z.to_nat n = Some f /\
                               bottom_lit (112 - n) f)
              (fun k => Z.to_nat k)
              (fun length => length >? 0)
              (fun length => u8 (length - 1))
              (fun length _ =>
                 for_loop FUEL_U8 (fun led => led >? length)
                   (fun led => u8 (led - 1))
                   (fun led _ =>
                      let color := u8 (led * hueFactor) in
                      setLed led (CHSV color 255 60))
                   (u8 (NUM_LEDS - 1)) tt ;;
                 FastLED_show ;;
                 delay 10))
    with (fuel := FUEL_U8) (x := 112) (a := tt) (s := s)
    as (k & [] & s' & E & (Hk & Hl & Hm & Hc & evs & Ht & Hr & Hlen & Hfr) & Ec).
  - intros k [] s1 (Hk & Hl & Hm & Hc & evs & Ht & Hr & Hlen & Hfr) Ec.
    apply Z.gtb_lt in Ec.
    destruct (paint_bottom k (Z.min (k + 1) 112) s1)
      as (s2 & E2 & Hl2 & Hm2 & Hc2 & Ht2);
      [lia | unfold NUM_LEDS; lia | exact Hl |].
    exists tt, (log (EvDelay 10) (log (EvShow (leds s2)) s2)).
    split; [rewrite (bind_Some _ _ _ _ _ E2); reflexivity |].
    rewrite u8_small by lia.
    split; [| lia].
    split; [lia |].
    split.
    { cbn [leds log]. replace (Z.min (k - 1 + 1) 112) with k by lia. exact Hl2. }
    split; [cbn; congruence |]. split; [cbn; congruence |].
    exists (evs ++ [EvShow (leds s2); EvDelay 10]).
    split.
    { cbn [trace log]. rewrite Ht2, Ht, <- !app_assoc. reflexivity. }
    split; [rewrite reads_app, Hr; reflexivity |].
    rewrite shown_app. cbn [shown flat_map app].
    split; [rewrite length_app, Hlen; cbn; lia |].
    intros n Hn. destruct (Z.eq_dec n (112 - k)) as [-> | Hne].
    + exists (leds s2). split.
      * apply list_lookup_middle. lia.
      * replace (112 - (112 - k)) with k by lia. exact Hl2.
    + destruct (Hfr n) as (f & Hf & Hlf); [lia |].
      exists f. split; [| exact Hlf].
      rewrite lookup_app_l by lia. exact Hf.
  - split; [lia |].
    split; [rewrite Hclr; exact bottom_lit_cleared |].
    split; [reflexivity |]. split; [reflexivity |].
    exists []. split; [symmetry; apply app_nil_r |].
    split; [reflexivity |]. split; [reflexivity |].
    intros n Hn. lia.
  - unfold FUEL_U8. lia.
  - rewrite Z.gtb_ltb in Ec. apply Z.ltb_ge in Ec. assert (k = 0) as -> by lia.
    exists s', evs.
    split; [exact E |]. split; [exact Hl |].
    split; [exact Hm |]. split; [exact Hc |]. split; [exact Ht |].
    split; [exact Hr |]. split; [exact Hlen |].
    intros n Hn. unfold NUM_LEDS in Hn.
    destruct (Hfr n) as (f & Hf & Hlf); [lia |].
    exists f. split; [exact Hf | exact Hlf].
Qed.

(** X13. Started on a cleared buffer, "fill from bottom" presents
    [NUM_LEDS - 1] growth frames; frame number [n] (from 0) lights
    exactly the [n] pixels of highest index, at hue
    [i * (255 / NUM_LEDS)], saturation 255 and brightness 60, and leaves
    the pixels up to index [NUM_LEDS - 1 - n] cleared.  So the first
    frame is dark, and in the last growth frame pixels 0 and 1 are still
    dark. *)
Theorem lightsFromBottom_growth_frames (s : State) :
  leds s = cleared ->
  exists s' evs,
    lightsFromBottom s = Some (tt, s') /\
    trace s' = trace s ++ evs /\
    forall n, 0 <= n < NUM_LEDS - 1 ->
      exists f,
        shown evs !! Z.to_nat n = Some f /\
        length f = Z.to_nat NUM_LEDS /\
        (forall i : nat, NUM_LEDS - 1 - n < Z.of_nat i < NUM_LEDS ->
           f !! i = Some (CHSV (Z.of_nat i * (255 / NUM_LEDS)) 255 60)) /\
        (forall i : nat, Z.of_nat i <= NUM_LEDS - 1 - n ->
           f !! i = Some Black).
Proof.
  intros Hclr.
  destruct (fillFromBottom_frames (called FnLightsFromBottom s) Hclr)
    as (s1 & evs1 & E1 & Hl1 & _ & _ & Ht1 & _ & Hlen & Hfr).
  assert (Hrest : clearing (delay 40000 ;; fadeOut ;; FastLED_clear true)).
  { apply clearing_bind; [apply quiet_delay |].
    apply clearing_bind; [apply quiet_fadeOut | apply clearing_clear]. }
  destruct (Hrest s1 (proj1 Hl1)) as (s' & E2 & (_ & _ & _ & evs2 & Ht2 & _) & _).
  exists s', (evs1 ++ evs2).
  split.
  { unfold lightsFromBottom. unfold bind at 1. unfold enter at 1.
    rewrite (bind_Some _ _ _ _ _ E1). exact E2. }
  split.
  { rewrite Ht2, Ht1. cbn [trace called]. symmetry. apply app_assoc. }
  intros n Hn. destruct (Hfr n Hn) as (f & Hf & Hlen' & Hlit & Hdark).
  exists f. split.
  { rewrite shown_app, lookup_app_l by (rewrite Hlen; lia). exact Hf. }
  split; [exact Hlen' |].
  split; [exact Hlit |].
  intros i Hi. apply Hdark; [exact Hi | unfold NUM_LEDS in *; lia].
Qed.

Lemma lightsFromBottom_growth_frames_witness :
  exists s' evs,
    lightsFromBottom boot = Some (tt, s') /\
    trace s' = trace boot ++ evs /\
    forall n, 0 <= n < NUM_LEDS - 1 ->
      exists f,
        shown evs !! Z.to_nat n = Some f /\
        length f = Z.to_nat NUM_LEDS /\
        (forall i : nat, NUM_LEDS - 1 - n < Z.of_nat i < NUM_LEDS ->
           f !! i = Some (CHSV (Z.of_nat i * (255 / NUM_LEDS)) 255 60)) /\
        (forall i : nat, Z.of_nat i <= NUM_LEDS - 1 - n ->
           f !! i = Some Black).
Proof.
  apply (lightsFromBottom_growth_frames boot). reflexivity.
Defined.
